(** * Library service: business rules of the library management system

    Shallow embedding of [library_service.py] (catalog management,
    borrowing and returning, late fees, catalog search, patron status
    report) and the properties of its public operations.

    Conventions of the embedding.
    - A Python [str] is a [string] whose characters are read as code points
      below 256; [len] is [String.length].
    - A Python [int] is a [Z].
    - A [datetime] is a [Z]: seconds since 1970-01-01T00:00:00 (naive local
      time), meant within the years 1 to 9999 that a [datetime] holds;
      [.date()] keeps the day number, [timedelta(days=n)] adds
      [n * 86400] seconds.
    - A [float] holding money is a [Q].  Every amount the service computes
      is a multiple of one half no larger than a date difference in days,
      hence exactly representable in binary64, so that the float operations
      of the source agree with the exact ones used here.
    - A function of the service is a computation in the monad [Py]: it reads
      and writes the store, and either returns a value or raises. *)

From Stdlib Require Import ZArith QArith Qround List String Ascii Bool Lia.
From Stdlib Require Import Qminmax DecimalString Sorted.
Import ListNotations.
Local Open Scope string_scope.
Local Open Scope Z_scope.

(** ** Python strings *)

Module PyStr.

Definition code (c : ascii) : N := N_of_ascii c.

Definition between (lo hi n : N) : bool := (N.leb lo n && N.leb n hi)%bool.

(** [str.isspace] on one code point below 256. *)
Definition isspace_char (c : ascii) : bool :=
  let n := code c in
  (between 9 13 n || between 28 32 n || N.eqb n 133 || N.eqb n 160)%bool.

(** [str.isdigit] on one code point below 256: the decimal digits and the
    superscript digits U+00B2, U+00B3, U+00B9. *)
Definition isdigit_char (c : ascii) : bool :=
  let n := code c in
  (between 48 57 n || N.eqb n 178 || N.eqb n 179 || N.eqb n 185)%bool.

(** [str.lower] on one code point below 256. *)
Definition lower_char (c : ascii) : ascii :=
  let n := code c in
  if (between 65 90 n || (between 192 222 n && negb (N.eqb n 215)))%bool
  then ascii_of_N (n + 32) else c.

Fixpoint lower (s : string) : string :=
  match s with
  | EmptyString => EmptyString
  | String c r => String (lower_char c) (lower r)
  end.

Fixpoint lstrip (s : string) : string :=
  match s with
  | EmptyString => EmptyString
  | String c r => if isspace_char c then lstrip r else s
  end.

Fixpoint rstrip (s : string) : string :=
  match s with
  | EmptyString => EmptyString
  | String c r =>
      match rstrip r with
      | EmptyString => if isspace_char c then EmptyString else String c EmptyString
      | r' => String c r'
      end
  end.

(** [s.strip()] *)
Definition strip (s : string) : string := rstrip (lstrip s).

Fixpoint all_chars (p : ascii -> bool) (s : string) : bool :=
  match s with
  | EmptyString => true
  | String c r => (p c && all_chars p r)%bool
  end.

(** [s.isdigit()]: false on the empty string. *)
Definition isdigit (s : string) : bool :=
  match s with
  | EmptyString => false
  | _ => all_chars isdigit_char s
  end.

(** [len(s)] *)
Definition len (s : string) : Z := Z.of_nat (String.length s).

(** Truth value of a string: [not s] is [negb (truthy s)]. *)
Definition truthy (s : string) : bool :=
  match s with EmptyString => false | _ => true end.

(** [needle in hay] *)
Fixpoint contains (needle hay : string) : bool :=
  (String.prefix needle hay ||
   match hay with
   | EmptyString => false
   | String _ r => contains needle r
   end)%bool.

(** The character [U+0022], spelled by its code. *)
Definition dquote : string := String (ascii_of_N 34) EmptyString.

End PyStr.

(** ** Dates *)

Module PyDate.

(** [dt.date()] as a day number. *)
Definition date (dt : Z) : Z := dt / 86400.

(** The last moment a [datetime] holds, 9999-12-31T23:59:59, and the
    first moment of the year 1000. *)
Definition datetime_max : Z := 2932896 * 86400 + 86399.

Definition year_1000 : Z := -354285 * 86400.

(** [dt + timedelta(days=n)], for a result that a [datetime] holds, that
    is up to [datetime_max]; beyond it Python raises [OverflowError],
    which a borrow meets only in the last fourteen days of the year
    9999. *)
Definition add_days (dt n : Z) : Z := dt + n * 86400.

(** Year, month and day of a day number counted from 1970-01-01
    (proleptic Gregorian calendar). *)
Definition civil_from_days (z : Z) : Z * Z * Z :=
  let z := z + 719468 in
  let era := z / 146097 in
  let doe := z - era * 146097 in
  let yoe := (doe - doe / 1460 + doe / 36524 - doe / 146096) / 365 in
  let y := yoe + era * 400 in
  let doy := doe - (365 * yoe + yoe / 4 - yoe / 100) in
  let mp := (5 * doy + 2) / 153 in
  let d := doy - (153 * mp + 2) / 5 + 1 in
  let m := if mp <? 10 then mp + 3 else mp - 9 in
  (if m <=? 2 then y + 1 else y, m, d).

Definition dec (n : Z) : string := NilZero.string_of_uint (N.to_uint (Z.to_N n)).

Definition pad (width : nat) (s : string) : string :=
  (fix zeros (k : nat) : string :=
     match k with
     | O => s
     | S k' => String "0"%char (zeros k')
     end) (width - String.length s)%nat.

(** [dt.strftime("%Y-%m-%d")] for the dates a [datetime] holds, years 1
    to 9999: month and day on two digits, the year as the C library
    prints it, which is four digits from the year 1000 on and, with
    glibc, the bare number before (950, not 0950). *)
Definition strftime_ymd (dt : Z) : string :=
  let '(y, m, d) := civil_from_days (date dt) in
  dec y ++ "-" ++ pad 2 (dec m) ++ "-" ++ pad 2 (dec d).

End PyDate.

(** ** The store and the monad of the service *)

Module Book.
(** Modelled from the spec: the Book of the data model (section 3), a row
    of the table behind the absent module [database]; the service reads
    its fields by these names. *)
Record t := mk {
  id : Z;
  title : string;
  author : string;
  isbn : string;
  total_copies : Z;
  available_copies : Z
}.
End Book.

Module BorrowRecord.
(** Modelled from the spec: the BorrowRecord of the data model (section
    3); a record without return date is active. *)
Record t := mk {
  patron_id : string;
  book_id : Z;
  borrow_date : Z;
  due_date : Z;
  return_date : option Z
}.
End BorrowRecord.

(** Modelled from the spec: the store behind the data access interface,
    in catalog and insertion order, together with the clock read by
    [datetime.now()] and the fate of the coming storage writes, each of
    which reports [ok] or not: the head of [refusals] tells whether the
    next write is refused ([true]) or carried out ([false]); once the list
    is used up every write is carried out. *)
Record World := mkWorld {
  books : list Book.t;
  borrow_records : list BorrowRecord.t;
  clock : Z;
  refusals : list bool
}.

Inductive Exn : Type :=
| TypeError (msg : string).

Inductive Outcome (A : Type) : Type :=
| Returned (a : A)
| Raised (e : Exn).
Arguments Returned {A} a.
Arguments Raised {A} e.

(** A computation of the service: state passing, with exceptions that keep
    the state reached when they are raised. *)
Definition Py (A : Type) : Type := World -> Outcome A * World.

Definition ret {A} (a : A) : Py A := fun w => (Returned a, w).

Definition raise {A} (e : Exn) : Py A := fun w => (Raised e, w).

Definition bind {A B} (c : Py A) (k : A -> Py B) : Py B :=
  fun w =>
    match c w with
    | (Returned a, w') => k a w'
    | (Raised e, w') => (Raised e, w')
    end.

Notation "x <- c ;; k" := (bind c (fun x => k))
  (at level 61, c at next level, right associativity).

(** Reading the store. *)
Definition query {A} (f : World -> A) : Py A := fun w => (Returned (f w), w).

(** Modelled from the spec: a write of the data access interface, refused
    or carried out as [refusals] tells; a refused write leaves books and
    records as they were; the returned boolean is its [ok]. *)
Definition attempt (f : World -> World) : Py bool :=
  fun w =>
    match refusals w with
    | true :: rest =>
        (Returned false,
         mkWorld (books w) (borrow_records w) (clock w) rest)
    | false :: rest =>
        (Returned true,
         f (mkWorld (books w) (borrow_records w) (clock w) rest))
    | [] => (Returned true, f w)
    end.

(** The world with the fate of its next write used up. *)
Definition pop_refusal (w : World) : World :=
  mkWorld (books w) (borrow_records w) (clock w) (tl (refusals w)).

(** [datetime.now()] *)
Definition datetime_now : Py Z := query clock.

(** ** The data access interface

    The module [database] is imported by the service and its source is
    absent; its operations follow section 6 of the specification. *)

Module Borrowed.
(** Modelled from the spec: a row of [get_patron_borrowed_books], an
    active borrow record together with the title and author of its book,
    under the names the service reads. *)
Record t := mk {
  book_id : Z;
  title : string;
  author : string;
  borrow_date : Z;
  due_date : Z
}.
End Borrowed.

Module Database.

(** Modelled from the spec: an active record of the patron, one whose
    return date is unset. *)
Definition is_active (patron_id : string) (r : BorrowRecord.t) : bool :=
  (String.eqb (BorrowRecord.patron_id r) patron_id &&
   match BorrowRecord.return_date r with None => true | Some _ => false end)%bool.

(** Modelled from the spec: what [updateBookAvailability] does to one
    book, its availability moved by [change] when its id is [book_id], the
    same book otherwise. *)
Definition adjust (book_id change : Z) (b : Book.t) : Book.t :=
  if Book.id b =? book_id
  then Book.mk (Book.id b) (Book.title b) (Book.author b) (Book.isbn b)
         (Book.total_copies b) (Book.available_copies b + change)
  else b.

(** Modelled from the spec: what [updateBorrowRecordReturnDate] does to
    one record, closed at [return_date] when it is an active record of
    [patron_id] for [book_id], the same record otherwise. *)
Definition close (patron_id : string) (book_id return_date : Z)
    (r : BorrowRecord.t) : BorrowRecord.t :=
  if (is_active patron_id r && (BorrowRecord.book_id r =? book_id))%bool
  then BorrowRecord.mk (BorrowRecord.patron_id r) (BorrowRecord.book_id r)
         (BorrowRecord.borrow_date r) (BorrowRecord.due_date r)
         (Some return_date)
  else r.

(** Modelled from the spec: the id the store assigns to the next book,
    one above the ids in use. *)
Definition fresh_id (bs : list Book.t) : Z :=
  1 + fold_right Z.max 0 (map Book.id bs).

(** Modelled from the spec: borrow records joined with the books they
    refer to, as the history of section 6 is; the report's own query below
    joins the same way. *)
Definition join_books (rs : list BorrowRecord.t) (bs : list Book.t)
    : list (BorrowRecord.t * Book.t) :=
  flat_map
    (fun r =>
       map (fun b => (r, b))
         (filter (fun b => Book.id b =? BorrowRecord.book_id r) bs))
    rs.

Definition set_books (bs : list Book.t) (w : World) : World :=
  mkWorld bs (borrow_records w) (clock w) (refusals w).

Definition set_borrow_records (rs : list BorrowRecord.t) (w : World) : World :=
  mkWorld (books w) rs (clock w) (refusals w).

(** Modelled from the spec: [getBookById(id) -> Book | absent], of the
    module [database], which is absent from the sources. *)
Definition get_book_by_id (book_id : Z) : Py (option Book.t) :=
  query (fun w => find (fun b => Book.id b =? book_id) (books w)).

(** Modelled from the spec: [getBookByIsbn(isbn) -> Book | absent], of the
    absent module [database]. *)
Definition get_book_by_isbn (isbn : string) : Py (option Book.t) :=
  query (fun w => find (fun b => String.eqb (Book.isbn b) isbn) (books w)).

(** Modelled from the spec: [getAllBooks() -> sequence of Book], of the
    absent module [database]; the sequence is the catalog in its order. *)
Definition get_all_books : Py (list Book.t) := query books.

(** Modelled from the spec: [insertBook(title, author, isbn, totalCopies,
    availableCopies) -> ok], of the absent module [database]; the id is
    assigned by the store. *)
Definition insert_book (title author isbn : string)
    (total_copies available_copies : Z) : Py bool :=
  attempt (fun w =>
    set_books
      (books w ++
       [Book.mk (fresh_id (books w)) title author isbn
          total_copies available_copies]) w).

(** Modelled from the spec: [updateBookAvailability(id, delta) -> ok], of
    the absent module [database]; an unguarded update of the books with
    that id. *)
Definition update_book_availability (book_id change : Z) : Py bool :=
  attempt (fun w => set_books (map (adjust book_id change) (books w)) w).

(** Modelled from the spec: [getPatronActiveBorrowCount(patronId) ->
    integer], of the absent module [database]. *)
Definition get_patron_borrow_count (patron_id : string) : Py Z :=
  query (fun w =>
    Z.of_nat (List.length (filter (is_active patron_id) (borrow_records w)))).

(** Modelled from the spec: [getPatronActiveBorrowRecords(patronId) ->
    sequence of BorrowRecord (only unreturned)], of the absent module
    [database]; each row carries the title and author of its book, which
    the status report reads from it. *)
Definition get_patron_borrowed_books (patron_id : string)
    : Py (list Borrowed.t) :=
  query (fun w =>
    map (fun rb : BorrowRecord.t * Book.t =>
           let (r, b) := rb in
           Borrowed.mk (BorrowRecord.book_id r) (Book.title b)
             (Book.author b) (BorrowRecord.borrow_date r)
             (BorrowRecord.due_date r))
      (join_books (filter (is_active patron_id) (borrow_records w))
         (books w))).

(** Modelled from the spec: [insertBorrowRecord(patronId, bookId,
    borrowDate, dueDate) -> ok], of the absent module [database]; the new
    record is active. *)
Definition insert_borrow_record (patron_id : string)
    (book_id borrow_date due_date : Z) : Py bool :=
  attempt (fun w =>
    set_borrow_records
      (borrow_records w ++
       [BorrowRecord.mk patron_id book_id borrow_date due_date None]) w).

(** Modelled from the spec: [updateBorrowRecordReturnDate(patronId, bookId,
    returnDate) -> ok], of the absent module [database]; the interface
    names a record by patron and book only, so every active record of that
    patron for that book is closed. *)
Definition update_borrow_record_return_date (patron_id : string)
    (book_id return_date : Z) : Py bool :=
  attempt (fun w =>
    set_borrow_records
      (map (close patron_id book_id return_date) (borrow_records w)) w).

End Database.
Import Database.

(** ** Loops *)

(** What one pass through the body of a [for] loop asks for next. *)
Inductive Ctl (S R : Type) : Type :=
| Continue (s : S)
| Break (s : S)
| Return (r : R).
Arguments Continue {S R} s.
Arguments Break {S R} s.
Arguments Return {S R} r.

(** [for x in l: body], the body free of store effects; [inl s] when the
    loop ends (exhausted or left by [break]) with the loop variables [s],
    [inr r] when the body returns [r] from the enclosing function. *)
Fixpoint for_each {X S R : Type} (l : list X) (body : X -> S -> Ctl S R)
    (s : S) : S + R :=
  match l with
  | [] => inl s
  | x :: rest =>
      match body x s with
      | Continue s' => for_each rest body s'
      | Break s' => inl s'
      | Return r => inr r
      end
  end.

(** [for x in l: body], the body a computation without [break] or
    [return]. *)
Fixpoint for_each_m {X S : Type} (l : list X) (body : X -> S -> Py S)
    (s : S) : Py S :=
  match l with
  | [] => ret s
  | x :: rest => s' <- body x s ;; for_each_m rest body s'
  end.

(** ** The results of the service *)

Module FeeQuote.
Record t := mk {
  fee_amount : Q;
  days_overdue : Z;
  status : string
}.
End FeeQuote.

Module Detail.
Record t := mk {
  book_id : Z;
  title : string;
  author : string;
  borrow_date : Z;
  due_date : Z;
  days_overdue : Z;
  late_fee : Q;
  status : string
}.
End Detail.

Module History.
Record t := mk {
  book_id : Z;
  title : string;
  author : string;
  borrow_date : Z;
  due_date : Z;
  return_date : Z + string
}.
End History.

Module StatusReport.
Record t := mk {
  patron_id : string;
  borrow_count : Z;
  borrowed_books : list Detail.t;
  borrowing_history : list History.t;
  total_late_fee : Q
}.
End StatusReport.

(** [round(x, 2)]: the nearest multiple of one hundredth, ties to the even
    one, in lowest terms. *)
Definition round2 (x : Q) : Q :=
  let y := (x * 100)%Q in
  let f := Qfloor y in
  let n :=
    match ((y - inject_Z f) ?= (1 # 2))%Q with
    | Lt => f
    | Gt => f + 1
    | Eq => if Z.even f then f else f + 1
    end in
  Qred (n # 100).

(** ** The service *)

Import PyStr PyDate.

(** [add_book_to_catalog(title, author, isbn, total_copies)] *)
Definition add_book_to_catalog (title author isbn : string)
    (total_copies : Z) : Py (bool * string) :=
  if (negb (truthy title) || negb (truthy (strip title)))%bool then
    ret (false, "Title is required.")
  else if len (strip title) >? 200 then
    ret (false, "Title must be less than 200 characters.")
  else if (negb (truthy author) || negb (truthy (strip author)))%bool then
    ret (false, "Author is required.")
  else if len (strip author) >? 100 then
    ret (false, "Author must be less than 100 characters.")
  else if negb (len isbn =? 13) then
    ret (false, "ISBN must be exactly 13 digits.")
  else if total_copies <=? 0 then
    (* [isinstance(total_copies, int)] holds of every [Z] *)
    ret (false, "Total copies must be a positive integer.")
  else
    existing <- get_book_by_isbn isbn ;;
    match existing with
    | Some _ => ret (false, "A book with this ISBN already exists.")
    | None =>
        success <- insert_book (strip title) (strip author) isbn
                     total_copies total_copies ;;
        if success : bool then
          ret (true,
               "Book " ++ dquote ++ strip title ++ dquote ++
               " has been successfully added to the catalog.")
        else
          ret (false, "Database error occurred while adding the book.")
    end.

(** [borrow_book_by_patron(patron_id, book_id)] *)
Definition borrow_book_by_patron (patron_id : string) (book_id : Z)
    : Py (bool * string) :=
  if (negb (truthy patron_id) || negb (isdigit patron_id)
      || negb (len patron_id =? 6))%bool then
    ret (false, "Invalid patron ID. Must be exactly 6 digits.")
  else
    book <- get_book_by_id book_id ;;
    match book with
    | None => ret (false, "Book not found.")
    | Some book =>
        if Book.available_copies book <=? 0 then
          ret (false, "This book is currently not available.")
        else
          current_borrowed <- get_patron_borrow_count patron_id ;;
          if current_borrowed >? 5 then
            ret (false,
                 "You have reached the maximum borrowing limit of 5 books.")
          else
            borrow_date <- datetime_now ;;
            let due_date := add_days borrow_date 14 in
            borrow_success <- insert_borrow_record patron_id book_id
                                borrow_date due_date ;;
            if negb borrow_success then
              ret (false,
                   "Database error occurred while creating borrow record.")
            else
              availability_success <- update_book_availability book_id (-1) ;;
              if negb availability_success then
                ret (false,
                     "Database error occurred while updating book availability.")
              else
                ret (true,
                     "Successfully borrowed " ++ dquote ++ Book.title book ++
                     dquote ++ ". Due date: " ++ strftime_ymd due_date ++ ".")
    end.

(** [return_book_by_patron(patron_id, book_id)].  The test
    [type(book_id) is not int] never holds of a [Z] and is left out. *)
Definition return_book_by_patron (patron_id : string) (book_id : Z)
    : Py (bool * string) :=
  if (negb (truthy patron_id) || negb (isdigit patron_id)
      || negb (len patron_id =? 6))%bool then
    ret (false, "Invalid patron ID. Must be exactly 6 digits.")
  else
    book <- get_book_by_id book_id ;;
    match book with
    | None => ret (false, "Book not found.")
    | Some _ =>
        borrowed_books <- get_patron_borrowed_books patron_id ;;
        match
          for_each borrowed_books
            (fun i (_ : option Borrowed.t) =>
               if Borrowed.book_id i =? book_id then Break (Some i)
               else
                 Return
                   (false,
                    "This book is not currently being borrowed by you."))
            None
        with
        | inr r => ret r
        | inl _ =>
            now <- datetime_now ;;
            updated <- update_borrow_record_return_date patron_id book_id now ;;
            if negb updated then
              ret (false, "Error while updating return record.")
            else
              available <- update_book_availability book_id 1 ;;
              if negb available then
                ret (false, "Error while updating book availability.")
              else
                ret (true, "Successfully returned book.")
        end
    end.

(** [calculate_late_fee_for_book(patron_id, book_id)].  The test
    [due_date is str] compares the value with the type [str] itself and
    never holds; its branch is left out. *)
Definition calculate_late_fee_for_book (patron_id : string) (book_id : Z)
    : Py FeeQuote.t :=
  borrowed_books <- get_patron_borrowed_books patron_id ;;
  match
    for_each borrowed_books
      (fun i (_ : option Borrowed.t) =>
         if Borrowed.book_id i =? book_id then Break (Some i)
         else Return (FeeQuote.mk 0 0 "Not being borrowed"))
      None
  with
  | inr quote => ret quote
  | inl None =>
      (* [borrowed["due_date"]] with [borrowed] still [None] *)
      raise (TypeError "'NoneType' object is not subscriptable")
  | inl (Some borrowed) =>
      let due_date := Borrowed.due_date borrowed in
      now <- datetime_now ;;
      let days_overdue := Z.max (date now - date due_date) 0 in
      let '(fee, status) :=
        if days_overdue <=? 0 then
          (0%Q, "On time")
        else
          let first_week := Z.min days_overdue 7 in
          let remaining := Z.max (days_overdue - 7) 0 in
          let fee :=
            (inject_Z first_week * (1 # 2) + inject_Z remaining * 1)%Q in
          let fee :=
            match (fee ?= 15)%Q with
            | Gt => 15%Q
            | _ => fee
            end in
          (fee, "Overdue") in
      ret (FeeQuote.mk (round2 fee) days_overdue status)
  end.

(** [i.get(key, default)] on a book, for the keys the search asks for, the
    default being the empty string. *)
Definition get_field (key : string) (b : Book.t) : string :=
  if String.eqb key "title" then Book.title b
  else if String.eqb key "author" then Book.author b
  else if String.eqb key "isbn" then Book.isbn b
  else EmptyString.

(** [key in {"title", "author", "isbn"}] *)
Definition is_search_type (key : string) : bool :=
  (String.eqb key "title" || String.eqb key "author"
   || String.eqb key "isbn")%bool.

(** [search_books_in_catalog(search_term, search_type)] *)
Definition search_books_in_catalog (search_term search_type : string)
    : Py (list Book.t) :=
  if negb (truthy search_term) then ret []
  else
    let search_type :=
      lower (if truthy search_type then search_type else "title") in
    let search_type :=
      if negb (is_search_type search_type) then "title" else search_type in
    let term := lower (strip search_term) in
    books <- get_all_books ;;
    match
      for_each books
        (fun i (results : list Book.t) =>
           let value := lower (get_field search_type i) in
           if (String.eqb search_type "title"
               || String.eqb search_type "author")%bool then
             if contains term value then Continue (results ++ [i])%list
             else Continue results
           else if String.eqb search_type "isbn" then
             if String.eqb (lower (get_field "isbn" i)) term
             then Continue (results ++ [i])%list
             else Continue results
           else Continue results)
        []
    with
    | inl results => ret results
    | inr r => match r : Empty_set with end
    end.

(** [ORDER BY borrow_date DESC], rows of equal date kept in their order. *)
Fixpoint insert_desc (x : BorrowRecord.t * Book.t)
    (l : list (BorrowRecord.t * Book.t)) : list (BorrowRecord.t * Book.t) :=
  match l with
  | [] => [x]
  | y :: rest =>
      if BorrowRecord.borrow_date (fst y) <=? BorrowRecord.borrow_date (fst x)
      then x :: l
      else y :: insert_desc x rest
  end.

Definition order_by_borrow_date_desc (l : list (BorrowRecord.t * Book.t))
    : list (BorrowRecord.t * Book.t) :=
  fold_right insert_desc [] l.

(** The query of the status report: every borrow record of the patron,
    joined with its book, latest first. *)
Definition select_history (patron_id : string)
    : Py (list (BorrowRecord.t * Book.t)) :=
  query (fun w =>
    order_by_borrow_date_desc
      (join_books
         (filter (fun r => String.eqb (BorrowRecord.patron_id r) patron_id)
            (borrow_records w))
         (books w))).

(** [get_patron_status_report(patron_id)] *)
Definition get_patron_status_report (patron_id : string)
    : Py StatusReport.t :=
  if (negb (truthy patron_id) || negb (isdigit patron_id)
      || negb (len patron_id =? 6))%bool then
    ret (StatusReport.mk patron_id 0 [] [] 0)
  else
    borrowed_books <- get_patron_borrowed_books patron_id ;;
    acc <- for_each_m borrowed_books
             (fun book (acc : list Detail.t * Q) =>
                let '(borrowed_details, total_fees) := acc in
                let book_id := Borrowed.book_id book in
                fee_info <- calculate_late_fee_for_book patron_id book_id ;;
                ret ((borrowed_details ++
                      [Detail.mk book_id (Borrowed.title book)
                         (Borrowed.author book) (Borrowed.borrow_date book)
                         (Borrowed.due_date book)
                         (FeeQuote.days_overdue fee_info)
                         (FeeQuote.fee_amount fee_info)
                         (FeeQuote.status fee_info)])%list,
                     (total_fees + FeeQuote.fee_amount fee_info)%Q))
             ([], 0%Q) ;;
    let '(borrowed_details, total_fees) := acc in
    rows <- select_history patron_id ;;
    let history :=
      map (fun record : BorrowRecord.t * Book.t =>
             let (r, b) := record in
             History.mk (BorrowRecord.book_id r) (Book.title b)
               (Book.author b) (BorrowRecord.borrow_date r)
               (BorrowRecord.due_date r)
               match BorrowRecord.return_date r with
               | Some d => inl d
               | None => inr "Not yet returned"
               end)
        rows in
    ret (StatusReport.mk patron_id (Z.of_nat (List.length borrowed_books))
           borrowed_details history (round2 total_fees)).

(** The patron ids the service accepts. *)
Definition valid_patron_id (patron_id : string) : bool :=
  (truthy patron_id && isdigit patron_id && (len patron_id =? 6))%bool.

(** ** Requests and sample stores *)

(** The requests that change the store, and a run of them in order. *)
Inductive Request : Type :=
| AddBook (title author isbn : string) (total_copies : Z)
| Borrow (patron_id : string) (book_id : Z)
| ReturnBook (patron_id : string) (book_id : Z).

Definition serve (rq : Request) : Py (bool * string) :=
  match rq with
  | AddBook title author isbn total_copies =>
      add_book_to_catalog title author isbn total_copies
  | Borrow patron_id book_id => borrow_book_by_patron patron_id book_id
  | ReturnBook patron_id book_id => return_book_by_patron patron_id book_id
  end.

(** The replies to the requests, [None] standing for an exception, and the
    store they leave. *)
Fixpoint serve_all (rqs : list Request) (w : World)
    : list (option bool) * World :=
  match rqs with
  | [] => ([], w)
  | rq :: rest =>
      let (r, w1) := serve rq w in
      let (rs, w2) := serve_all rest w1 in
      (match r with Returned (ok, _) => Some ok | Raised _ => None end :: rs,
       w2)
  end.

(** The store [n] days later. *)
Definition days_later (n : Z) (w : World) : World :=
  mkWorld (books w) (borrow_records w) (add_days (clock w) n) (refusals w).

(** The data model's bound on every book: [0 <= available <= total]. *)
Definition copies_in_range (w : World) : bool :=
  forallb
    (fun b =>
       ((0 <=? Book.available_copies b) &&
        (Book.available_copies b <=? Book.total_copies b))%bool)
    (books w).

Definition gatsby : Book.t :=
  Book.mk 1 "The Great Gatsby" "F. Scott Fitzgerald" "9780743273565" 3 3.

Definition nineteen84 : Book.t :=
  Book.mk 2 "1984" "George Orwell" "9780451524935" 1 1.

Definition mockingbird : Book.t :=
  Book.mk 3 "To Kill a Mockingbird" "Harper Lee" "9780061120084" 10 10.

(** 2026-11-03, 12:00. *)
Definition noon : Z := 20760 * 86400 + 43200.

(** Three books, nobody borrowing, a store that carries out every write. *)
Definition small_library : World :=
  mkWorld [gatsby; nineteen84; mockingbird] [] noon [].

(** Patron 123456 has borrowed book 1, then book 2. *)
Definition two_loans : World :=
  snd (serve_all [Borrow "123456" 1; Borrow "123456" 2] small_library).

(** The rows of patron 123456 in [two_loans], and book 2 lent out. *)
Definition gatsby_loan : Borrowed.t :=
  Borrowed.mk 1 "The Great Gatsby" "F. Scott Fitzgerald" noon
    (add_days noon 14).

Definition nineteen84_loan : Borrowed.t :=
  Borrowed.mk 2 "1984" "George Orwell" noon (add_days noon 14).

Definition nineteen84_lent : Book.t :=
  Book.mk 2 "1984" "George Orwell" "9780451524935" 1 0.

(** The same store 24 days after the loans, 10 days after they were due. *)
Definition two_loans_overdue : World := days_later 24 two_loans.

(** Patron 777777 has borrowed book 3 five times. *)
Definition five_loans : World :=
  snd (serve_all (repeat (Borrow "777777" 3) 5) small_library).

(** The small library with a store that carries out the next write and
    refuses the one after. *)
Definition failing_store : World :=
  mkWorld (books small_library) [] noon [false; true].

(** A catalog built by two insertions whose isbn values differ by the case
    of one letter. *)
Definition case_variants : World :=
  snd (serve_all
         [AddBook "First" "Author" "978045152493X" 1;
          AddBook "Second" "Author" "978045152493x" 1]
         (mkWorld [] [] noon [])).

(** ** Measures of the store *)

(** The number of active records of a patron, as
    [get_patron_borrow_count] counts them. *)
Definition active_loans (patron_id : string) (w : World) : Z :=
  Z.of_nat (List.length (filter (is_active patron_id) (borrow_records w))).

(** The rows [get_patron_borrowed_books] returns for a patron. *)
Definition active_rows (patron_id : string) (w : World) : list Borrowed.t :=
  match fst (get_patron_borrowed_books patron_id w) with
  | Returned rows => rows
  | Raised _ => []
  end.

(** Ids and isbn values that name one book each. *)
Definition unique_keys (w : World) : Prop :=
  NoDup (map Book.id (books w)) /\ NoDup (map Book.isbn (books w)).

(** No book with a negative number of available copies. *)
Definition stock_not_negative (w : World) : Prop :=
  Forall (fun b => 0 <= Book.available_copies b) (books w).

(** What of a book no request is meant to touch. *)
Definition card (b : Book.t) : Z * string * string * string * Z :=
  (Book.id b, Book.title b, Book.author b, Book.isbn b, Book.total_copies b).

(** Patron 777777 has borrowed book 3 six times. *)
Definition six_loans : World :=
  snd (serve_all (repeat (Borrow "777777" 3) 6) small_library).


(** The rows [get_patron_borrowed_books] makes of records and books. *)
Definition borrowed_rows (rs : list BorrowRecord.t) (bs : list Book.t)
    : list Borrowed.t :=
  map (fun rb : BorrowRecord.t * Book.t =>
         let (r, b) := rb in
         Borrowed.mk (BorrowRecord.book_id r) (Book.title b)
           (Book.author b) (BorrowRecord.borrow_date r)
           (BorrowRecord.due_date r))
    (join_books rs bs).

(** The fee in cents for a number of days overdue: fifty a day for the
    first seven days, a hundred a day beyond, at most 1500. *)
Definition fee_cents (d : Z) : Z :=
  Z.min (50 * Z.min d 7 + 100 * Z.max (d - 7) 0) 1500.

(** The sum the status report keeps of the fees of its entries. *)
Definition sum_fees (entries : list Detail.t) : Q :=
  fold_left (fun total e => (total + Detail.late_fee e)%Q) entries 0%Q.

(** The quote [calculate_late_fee_for_book] gives for a book when the
    first active row of the patron is [first]. *)
Definition quote_from_first (w : World) (first : Borrowed.t) (book_id : Z)
    : FeeQuote.t :=
  let d := Z.max (date (clock w) - date (Borrowed.due_date first)) 0 in
  if Borrowed.book_id first =? book_id
  then FeeQuote.mk (Qred (fee_cents d # 100)) d
         (if d <=? 0 then "On time" else "Overdue")
  else FeeQuote.mk 0 0 "Not being borrowed".

(** The entry the status report makes of a row and of the quote for its
    book. *)
Definition report_entry (w : World) (first row : Borrowed.t) : Detail.t :=
  let q := quote_from_first w first (Borrowed.book_id row) in
  Detail.mk (Borrowed.book_id row) (Borrowed.title row)
    (Borrowed.author row) (Borrowed.borrow_date row)
    (Borrowed.due_date row) (FeeQuote.days_overdue q)
    (FeeQuote.fee_amount q) (FeeQuote.status q).

(** The entries of the status report for the rows of a patron. *)
Definition report_entries (w : World) (rows : list Borrowed.t)
    : list Detail.t :=
  match rows with
  | [] => []
  | first :: _ => map (report_entry w first) rows
  end.

(** The entry the status report makes of a row of its history query. *)
Definition history_entry (record : BorrowRecord.t * Book.t) : History.t :=
  let (r, b) := record in
  History.mk (BorrowRecord.book_id r) (Book.title b) (Book.author b)
    (BorrowRecord.borrow_date r) (BorrowRecord.due_date r)
    match BorrowRecord.return_date r with
    | Some d => inl d
    | None => inr "Not yet returned"
    end.

(** The rows of the history query of the status report. *)
Definition history_rows (patron_id : string) (w : World)
    : list (BorrowRecord.t * Book.t) :=
  order_by_borrow_date_desc
    (join_books
       (filter (fun r => String.eqb (BorrowRecord.patron_id r) patron_id)
          (borrow_records w))
       (books w)).

(** Patron 123456 has borrowed book 2 and returned it. *)
Definition returned_loan : World :=
  snd (serve_all [Borrow "123456" 2; ReturnBook "123456" 2] small_library).

(** The search type [search_books_in_catalog] settles on. *)
Definition search_type_of (search_type : string) : string :=
  let t := lower (if truthy search_type then search_type else "title") in
  if negb (is_search_type t) then "title" else t.

(** The test the loop of the search applies to a book, for a settled
    search type and the trimmed, lowered term. *)
Definition matches (kind term : string) (b : Book.t) : bool :=
  if (String.eqb kind "title" || String.eqb kind "author")%bool
  then contains term (lower (get_field kind b))
  else if String.eqb kind "isbn"
       then String.eqb (lower (get_field "isbn" b)) term
       else false.

(** What of a borrow record no request is meant to touch. *)
Definition loan (r : BorrowRecord.t) : string * Z * Z * Z :=
  (BorrowRecord.patron_id r, BorrowRecord.book_id r,
   BorrowRecord.borrow_date r, BorrowRecord.due_date r).

(** * Properties *)

(** ** The helpers on known values *)

Example strip_example : strip "  Book Title  " = "Book Title".
Proof. reflexivity. Qed.

Example strip_blank : strip "   " = EmptyString.
Proof. reflexivity. Qed.

Example lower_example : lower "Great GATSBY 9" = "great gatsby 9".
Proof. reflexivity. Qed.

Example isdigit_examples :
  isdigit "123456" = true /\ isdigit "abc123" = false /\
  isdigit EmptyString = false.
Proof. repeat split. Qed.

Example contains_examples :
  contains "orw" "george orwell" = true /\
  contains "xyz" "george orwell" = false /\
  contains EmptyString "1984" = true.
Proof. repeat split. Qed.

Example strftime_examples :
  strftime_ymd 0 = "1970-01-01" /\
  strftime_ymd (11016 * 86400) = "2000-02-29" /\
  strftime_ymd noon = "2026-11-03" /\
  strftime_ymd (add_days noon 14) = "2026-11-17".
Proof. repeat split. Qed.

Example strftime_range_examples :
  strftime_ymd year_1000 = "1000-01-01" /\
  strftime_ymd (year_1000 - 1) = "999-12-31" /\
  strftime_ymd (add_days (-372488 * 86400) 14) = "950-03-15" /\
  strftime_ymd datetime_max = "9999-12-31" /\
  civil_from_days (date (datetime_max + 1)) = (10000, 1, 1).
Proof. repeat split. Qed.

Example round2_examples :
  round2 (5 # 2) = (5 # 2)%Q /\ round2 (1 # 8) = (3 # 25)%Q /\
  round2 (3 # 8) = (19 # 50)%Q /\ round2 (1 # 3) = (33 # 100)%Q.
Proof. repeat split. Qed.

(** ** Stepping through the monad *)

Lemma bind_returned {A B} (c : Py A) (k : A -> Py B) w a w' :
  c w = (Returned a, w') -> bind c k w = k a w'.
Proof. intros H. unfold bind. rewrite H. reflexivity. Qed.

Lemma bind_query {A B} (f : World -> A) (k : A -> Py B) w :
  bind (query f) k w = k (f w) w.
Proof. reflexivity. Qed.

Lemma query_inv {A} (f : World -> A) w a w' :
  query f w = (Returned a, w') -> a = f w /\ w' = w.
Proof. unfold query. intros H. inversion H. auto. Qed.

Lemma attempt_cases (f : World -> World) w :
  (attempt f w = (Returned false, pop_refusal w) /\
   exists fs, refusals w = true :: fs) \/
  (attempt f w = (Returned true, f (pop_refusal w)) /\
   hd false (refusals w) = false).
Proof.
  unfold attempt, pop_refusal.
  destruct w as [bs rs c fs]; simpl.
  destruct fs as [|[|] fs]; simpl; eauto.
Qed.

Lemma valid_patron_id_passes p :
  valid_patron_id p = true ->
  (negb (truthy p) || negb (isdigit p) || negb (len p =? 6))%bool = false.
Proof.
  unfold valid_patron_id. intros H.
  apply andb_true_iff in H. destruct H as [H H6].
  apply andb_true_iff in H. destruct H as [Ht Hd].
  rewrite Ht, Hd, H6. reflexivity.
Qed.

(** ** The catalog manager *)

Lemma find_isbn_app (bs : list Book.t) (b : Book.t) isbn :
  Book.isbn b = isbn ->
  exists b', find (fun x => String.eqb (Book.isbn x) isbn) (bs ++ [b]) = Some b'.
Proof.
  intros Hb. induction bs as [|x bs IH]; simpl.
  - rewrite Hb, String.eqb_refl. eauto.
  - destruct (String.eqb (Book.isbn x) isbn); eauto.
Qed.

Lemma add_book_blank_title w title author isbn n :
  strip title = EmptyString ->
  add_book_to_catalog title author isbn n w =
  (Returned (false, "Title is required."), w).
Proof.
  intros H. unfold add_book_to_catalog. rewrite H. simpl.
  rewrite orb_true_r. reflexivity.
Qed.

Lemma add_book_long_title w title author isbn n :
  200 < len (strip title) ->
  exists msg,
    add_book_to_catalog title author isbn n w = (Returned (false, msg), w).
Proof.
  intros H. unfold add_book_to_catalog.
  destruct (negb (truthy title) || negb (truthy (strip title)))%bool;
    [eexists; reflexivity|].
  replace (len (strip title) >? 200) with true
    by (symmetry; apply Z.gtb_lt; exact H).
  eexists; reflexivity.
Qed.

Lemma add_book_bad_isbn w title author isbn n :
  len isbn <> 13 ->
  exists msg,
    add_book_to_catalog title author isbn n w = (Returned (false, msg), w).
Proof.
  intros H. unfold add_book_to_catalog.
  apply Z.eqb_neq in H. rewrite H. simpl.
  repeat match goal with
         | |- context [if ?c then _ else _] =>
             destruct c; try (eexists; reflexivity)
         end.
Qed.

Lemma add_book_present_isbn w title author isbn n b :
  get_book_by_isbn isbn w = (Returned (Some b), w) ->
  exists msg,
    add_book_to_catalog title author isbn n w = (Returned (false, msg), w).
Proof.
  intros H. unfold add_book_to_catalog.
  repeat match goal with
         | |- context [if ?c then _ else _] =>
             destruct c; try (eexists; reflexivity)
         end.
  rewrite (bind_returned _ _ _ _ _ H). eexists; reflexivity.
Qed.

Lemma add_book_success_inv w title author isbn n msg w1 :
  add_book_to_catalog title author isbn n w = (Returned (true, msg), w1) ->
  (negb (truthy title) || negb (truthy (strip title)))%bool = false /\
  (len (strip title) >? 200) = false /\
  (negb (truthy author) || negb (truthy (strip author)))%bool = false /\
  (len (strip author) >? 100) = false /\
  negb (len isbn =? 13) = false /\
  (n <=? 0) = false /\
  exists b, Book.isbn b = isbn /\ exists bs fs,
    w1 = mkWorld (bs ++ [b]) (borrow_records w) (clock w) fs.
Proof.
  unfold add_book_to_catalog.
  repeat match goal with
         | |- context [if ?c then _ else _] =>
             destruct c eqn:?; try (unfold ret; discriminate)
         end.
  intros H. repeat (split; [reflexivity|]).
  unfold get_book_by_isbn in H. rewrite bind_query in H.
  destruct (find _ (books w)); [unfold ret in H; discriminate|].
  unfold insert_book, bind in H.
  destruct (attempt_cases
    (fun w0 => set_books (books w0 ++
       [Book.mk (fresh_id (books w0)) (strip title) (strip author) isbn n n])
       w0) w) as [[E _]|[E _]]; rewrite E in H; simpl in H.
  - unfold ret in H; discriminate.
  - unfold ret in H. inversion H; subst.
    eexists (Book.mk _ _ _ isbn _ _). split; [reflexivity|].
    eexists _, _. reflexivity.
Qed.

Lemma nonblank_passes (s : string) :
  strip s <> EmptyString ->
  (negb (truthy s) || negb (truthy (strip s)))%bool = false.
Proof.
  intros H. destruct s as [|c s]; [exfalso; apply H; reflexivity|].
  destruct (strip (String c s)); [exfalso; apply H; reflexivity|].
  reflexivity.
Qed.

Lemma blank_fails (s : string) :
  strip s = EmptyString ->
  (negb (truthy s) || negb (truthy (strip s)))%bool = true.
Proof. intros H. rewrite H. apply orb_true_r. Qed.

Lemma gtb_false_of_le (a b : Z) : a <= b -> (a >? b) = false.
Proof. intros H. rewrite Z.gtb_ltb. apply Z.ltb_ge. exact H. Qed.

Lemma gtb_true_of_lt (a b : Z) : b < a -> (a >? b) = true.
Proof. intros H. rewrite Z.gtb_ltb. apply Z.ltb_lt. exact H. Qed.

Lemma add_book_duplicate w title author isbn n b :
  get_book_by_isbn isbn w = (Returned (Some b), w) ->
  strip title <> EmptyString -> len (strip title) <= 200 ->
  strip author <> EmptyString -> len (strip author) <= 100 ->
  len isbn = 13 -> 0 < n ->
  add_book_to_catalog title author isbn n w =
    (Returned (false, "A book with this ISBN already exists."), w).
Proof.
  intros Hb Ht Hl Ha Hal Hi Hn. unfold add_book_to_catalog.
  rewrite (nonblank_passes _ Ht), (gtb_false_of_le _ _ Hl),
    (nonblank_passes _ Ha), (gtb_false_of_le _ _ Hal).
  apply Z.eqb_eq in Hi. rewrite Hi. cbn [negb].
  assert (Hn' : (n <=? 0) = false) by (apply Z.leb_gt; exact Hn).
  rewrite Hn'. rewrite (bind_returned _ _ _ _ _ Hb). reflexivity.
Qed.

(** C8: [add_book_to_catalog] reports failure, and leaves the store as it
    was, for a title that is blank or longer than 200 characters once
    trimmed, for an isbn whose length is not 13, and for an isbn already in
    the catalog.  For an isbn already in the catalog, every request that
    passes the checks on title, author, isbn length and copies gets the
    message that a book with this isbn already exists.  So, after a
    successful insertion, every further request with that isbn fails and
    inserts nothing, with that message whenever its other fields pass the
    checks, the repeated request among them. *)
Theorem add_book_rejections (w : World) (title author isbn : string) (n : Z) :
  ((strip title = EmptyString \/ 200 < len (strip title) \/ len isbn <> 13 \/
    exists b, get_book_by_isbn isbn w = (Returned (Some b), w)) ->
   exists msg,
     add_book_to_catalog title author isbn n w = (Returned (false, msg), w))
  /\
  ((exists b, get_book_by_isbn isbn w = (Returned (Some b), w)) ->
   strip title <> EmptyString -> len (strip title) <= 200 ->
   strip author <> EmptyString -> len (strip author) <= 100 ->
   len isbn = 13 -> 0 < n ->
   add_book_to_catalog title author isbn n w =
     (Returned (false, "A book with this ISBN already exists."), w))
  /\
  (forall msg w1,
     add_book_to_catalog title author isbn n w = (Returned (true, msg), w1) ->
     add_book_to_catalog title author isbn n w1 =
       (Returned (false, "A book with this ISBN already exists."), w1) /\
     forall title' author' n',
       (exists msg',
          add_book_to_catalog title' author' isbn n' w1 =
            (Returned (false, msg'), w1)) /\
       (strip title' <> EmptyString -> len (strip title') <= 200 ->
        strip author' <> EmptyString -> len (strip author') <= 100 ->
        0 < n' ->
        add_book_to_catalog title' author' isbn n' w1 =
          (Returned (false, "A book with this ISBN already exists."), w1))).
Proof.
  split; [|split].
  - intros [H|[H|[H|[b H]]]].
    + eexists. apply add_book_blank_title; exact H.
    + apply add_book_long_title; exact H.
    + apply add_book_bad_isbn; exact H.
    + eapply add_book_present_isbn; exact H.
  - intros [b Hb]. apply (add_book_duplicate w title author isbn n b Hb).
  - intros msg w1 H.
    destruct (add_book_success_inv _ _ _ _ _ _ _ H)
      as (H1 & H2 & H3 & H4 & H5 & H6 & b & Hb & bs & fs & ->).
    destruct (find_isbn_app bs b isbn Hb) as [b' Hf].
    assert (Hget : forall rs c fs',
      get_book_by_isbn isbn (mkWorld (bs ++ [b]) rs c fs') =
      (Returned (Some b'), mkWorld (bs ++ [b]) rs c fs')).
    { intros. unfold get_book_by_isbn, query. simpl. rewrite Hf. reflexivity. }
    assert (Hi : len isbn = 13).
    { destruct (len isbn =? 13) eqn:E; [apply Z.eqb_eq; exact E|discriminate]. }
    split.
    + unfold add_book_to_catalog. rewrite H1, H2, H3, H4, H5, H6.
      rewrite (bind_returned _ _ _ _ _ (Hget _ _ _)). reflexivity.
    + intros title' author' n'. split.
      * eapply add_book_present_isbn. apply Hget.
      * intros Ht Hl Ha Hal Hn.
        apply (add_book_duplicate _ title' author' isbn n' b' (Hget _ _ _));
          assumption.
Qed.

(** ** The circulation manager *)

Lemma attempt_inv (f : World -> World) w r w' :
  attempt f w = (r, w') ->
  (r = Returned false /\ w' = pop_refusal w) \/
  (r = Returned true /\ w' = f (pop_refusal w)).
Proof.
  intros H.
  destruct (attempt_cases f w) as [[E _]|[E _]]; rewrite E in H;
    inversion H; auto.
Qed.

Lemma first_record_scan {R} (book_id : Z) (r : Borrowed.t)
    (rest : list Borrowed.t) (miss : R) :
  for_each (r :: rest)
    (fun i (_ : option Borrowed.t) =>
       if Borrowed.book_id i =? book_id then Break (Some i) else Return miss)
    None
  = if Borrowed.book_id r =? book_id then inl (Some r) else inr miss.
Proof. simpl. destruct (Borrowed.book_id r =? book_id); reflexivity. Qed.

Lemma find_adjust (bid change : Z) (bs : list Book.t) :
  find (fun b => Book.id b =? bid) (map (adjust bid change) bs) =
  option_map (adjust bid change) (find (fun b => Book.id b =? bid) bs).
Proof.
  induction bs as [|b bs IH]; simpl; [reflexivity|].
  unfold adjust at 1. destruct (Book.id b =? bid) eqn:E; simpl.
  - rewrite E. unfold adjust. rewrite E. reflexivity.
  - rewrite E. exact IH.
Qed.

Lemma borrow_success_books w p bid msg w' :
  borrow_book_by_patron p bid w = (Returned (true, msg), w') ->
  books w' = map (adjust bid (-1)) (books w).
Proof.
  unfold borrow_book_by_patron.
  destruct (negb (truthy p) || negb (isdigit p) || negb (len p =? 6))%bool;
    [unfold ret; discriminate|].
  unfold get_book_by_id. rewrite bind_query.
  destruct (find _ (books w)) as [b|]; [|unfold ret; discriminate].
  destruct (Book.available_copies b <=? 0); [unfold ret; discriminate|].
  unfold get_patron_borrow_count. rewrite bind_query.
  match goal with |- context [if ?c then _ else _] => destruct c end;
    [unfold ret; discriminate|].
  unfold datetime_now. rewrite bind_query.
  unfold insert_borrow_record, update_book_availability, bind.
  match goal with |- context [attempt ?f w] =>
    destruct (attempt f w) as [r1 w1] eqn:E1;
    destruct (attempt_inv _ _ _ _ E1) as [[-> ->]|[-> ->]]
  end; simpl; [unfold ret; discriminate|].
  match goal with |- context [attempt ?f ?x] =>
    destruct (attempt f x) as [r2 w2] eqn:E2;
    destruct (attempt_inv _ _ _ _ E2) as [[-> ->]|[-> ->]]
  end; simpl; [unfold ret; discriminate|].
  unfold ret. intros H. inversion H. reflexivity.
Qed.

Lemma borrow_unavailable w p bid b :
  get_book_by_id bid w = (Returned (Some b), w) ->
  Book.available_copies b <= 0 ->
  exists msg, borrow_book_by_patron p bid w = (Returned (false, msg), w).
Proof.
  intros Hb Ha. unfold borrow_book_by_patron.
  destruct (negb (truthy p) || negb (isdigit p) || negb (len p =? 6))%bool;
    [eexists; reflexivity|].
  rewrite (bind_returned _ _ _ _ _ Hb).
  apply Z.leb_le in Ha. rewrite Ha. eexists; reflexivity.
Qed.

Lemma return_success_books w p bid msg w' :
  return_book_by_patron p bid w = (Returned (true, msg), w') ->
  books w' = map (adjust bid 1) (books w).
Proof.
  unfold return_book_by_patron.
  destruct (negb (truthy p) || negb (isdigit p) || negb (len p =? 6))%bool;
    [unfold ret; discriminate|].
  unfold get_book_by_id. rewrite bind_query.
  destruct (find _ (books w)) as [b|]; [|unfold ret; discriminate].
  unfold get_patron_borrowed_books. rewrite bind_query.
  match goal with |- context [for_each ?l ?f ?s] =>
    destruct (for_each l f s) as [found|[ok m]] eqn:Escan
  end.
  2:{ destruct (map _ _) as [|r rest] in Escan; [discriminate|].
      rewrite first_record_scan in Escan.
      destruct (Borrowed.book_id r =? bid); inversion Escan; subst.
      unfold ret; discriminate. }
  unfold datetime_now. rewrite bind_query.
  unfold update_borrow_record_return_date, update_book_availability, bind.
  match goal with |- context [attempt ?f w] =>
    destruct (attempt f w) as [r1 w1] eqn:E1;
    destruct (attempt_inv _ _ _ _ E1) as [[-> ->]|[-> ->]]
  end; simpl; [unfold ret; discriminate|].
  match goal with |- context [attempt ?f ?x] =>
    destruct (attempt f x) as [r2 w2] eqn:E2;
    destruct (attempt_inv _ _ _ _ E2) as [[-> ->]|[-> ->]]
  end; simpl; [unfold ret; discriminate|].
  unfold ret. intros H. inversion H. reflexivity.
Qed.

Lemma attempt_accepted (f : World -> World) w :
  hd false (refusals w) = false ->
  attempt f w = (Returned true, f (pop_refusal w)).
Proof.
  intros H. destruct (attempt_cases f w) as [[_ [fs E]]|[E _]]; [|exact E].
  rewrite E in H. discriminate.
Qed.

Lemma attempt_refused (f : World -> World) w fs :
  refusals w = true :: fs ->
  attempt f w = (Returned false, pop_refusal w).
Proof.
  intros H. destruct (attempt_cases f w) as [[E _]|[_ E]]; [exact E|].
  rewrite H in E. discriminate.
Qed.

(** What [adjust] does to each field. *)
Lemma adjust_fields (bid change : Z) (b : Book.t) :
  Book.id (adjust bid change b) = Book.id b /\
  Book.title (adjust bid change b) = Book.title b /\
  Book.author (adjust bid change b) = Book.author b /\
  Book.isbn (adjust bid change b) = Book.isbn b /\
  Book.total_copies (adjust bid change b) = Book.total_copies b /\
  Book.available_copies (adjust bid change b) =
    (if Book.id b =? bid then Book.available_copies b + change
     else Book.available_copies b) /\
  (Book.id b <> bid -> adjust bid change b = b).
Proof.
  unfold adjust. destruct (Book.id b =? bid) eqn:E; simpl; repeat split; auto.
  intros H. apply Z.eqb_eq in E. contradiction.
Qed.

(** C7: borrowing a book that has no available copy fails and leaves the
    store as it was; after a successful borrow the catalog is the former
    one with the available copies of the borrowed book lowered by exactly
    one, after a successful return the former one with them raised by
    exactly one, every other book and every other field being the same. *)
Theorem availability_moves_by_one (w : World) (p : string) (bid : Z) :
  (forall b,
     get_book_by_id bid w = (Returned (Some b), w) ->
     Book.available_copies b = 0 ->
     exists msg, borrow_book_by_patron p bid w = (Returned (false, msg), w))
  /\
  (forall msg w',
     borrow_book_by_patron p bid w = (Returned (true, msg), w') ->
     books w' = map (adjust bid (-1)) (books w))
  /\
  (forall msg w',
     return_book_by_patron p bid w = (Returned (true, msg), w') ->
     books w' = map (adjust bid 1) (books w)).
Proof.
  split; [|split].
  - intros b Hb H0. apply (borrow_unavailable w p bid b Hb). lia.
  - apply borrow_success_books.
  - apply return_success_books.
Qed.

Lemma closed_record_leaves p bid now (r : BorrowRecord.t) :
  is_active p (close p bid now r) = true ->
  BorrowRecord.book_id (close p bid now r) <> bid.
Proof.
  unfold close.
  destruct (is_active p r) eqn:Ea; simpl.
  - destruct (BorrowRecord.book_id r =? bid) eqn:Eb; simpl.
    + unfold is_active. simpl. rewrite andb_false_r. discriminate.
    + intros _. apply Z.eqb_neq. exact Eb.
  - rewrite Ea. discriminate.
Qed.

Lemma no_active_row_after_close p bid now (rs : list BorrowRecord.t)
    (w' : World) (rows : list Borrowed.t) :
  borrow_records w' = map (close p bid now) rs ->
  get_patron_borrowed_books p w' = (Returned rows, w') ->
  forall i, In i rows -> Borrowed.book_id i <> bid.
Proof.
  unfold get_patron_borrowed_books. intros Hrs H i Hin.
  apply query_inv in H. destruct H as [-> _]. rewrite Hrs in Hin.
  apply in_map_iff in Hin. destruct Hin as [[r b] [<- Hin]]. simpl.
  unfold join_books in Hin. apply in_flat_map in Hin.
  destruct Hin as [r' [Hr' Hin]].
  apply in_map_iff in Hin. destruct Hin as [b' [Hpair _]].
  inversion Hpair; subst.
  apply filter_In in Hr'. destruct Hr' as [Hr' Hact].
  apply in_map_iff in Hr'. destruct Hr' as [r0 [<- _]].
  apply closed_record_leaves with (p := p) (now := now). exact Hact.
Qed.

(** The rest of [return_book_by_patron] once the scan has let it through:
    the two storage calls and what is reported of them. *)
Lemma return_after_scan w p bid b rows :
  valid_patron_id p = true ->
  get_book_by_id bid w = (Returned (Some b), w) ->
  get_patron_borrowed_books p w = (Returned rows, w) ->
  (rows = [] \/ exists r rest, rows = r :: rest /\ Borrowed.book_id r = bid) ->
  return_book_by_patron p bid w =
  (updated <- update_borrow_record_return_date p bid (clock w) ;;
   if negb updated then ret (false, "Error while updating return record.")
   else
     available <- update_book_availability bid 1 ;;
     if negb available then
       ret (false, "Error while updating book availability.")
     else ret (true, "Successfully returned book.")) w.
Proof.
  intros Hp Hb Hrows Hscan. unfold return_book_by_patron.
  rewrite (valid_patron_id_passes p Hp).
  rewrite (bind_returned _ _ _ _ _ Hb).
  rewrite (bind_returned _ _ _ _ _ Hrows).
  destruct Hscan as [->|(r & rest & -> & Hr)].
  - reflexivity.
  - rewrite first_record_scan. apply Z.eqb_eq in Hr. rewrite Hr.
    reflexivity.
Qed.

Lemma return_storage_accepted w p bid :
  hd false (refusals w) = false ->
  hd false (tl (refusals w)) = false ->
  (updated <- update_borrow_record_return_date p bid (clock w) ;;
   if negb updated then ret (false, "Error while updating return record.")
   else
     available <- update_book_availability bid 1 ;;
     if negb available then
       ret (false, "Error while updating book availability.")
     else ret (true, "Successfully returned book.")) w
  = (Returned (true, "Successfully returned book."),
     mkWorld (map (adjust bid 1) (books w))
       (map (close p bid (clock w)) (borrow_records w))
       (clock w) (tl (tl (refusals w)))).
Proof.
  intros H1 H2.
  unfold update_borrow_record_return_date, update_book_availability.
  erewrite bind_returned by (apply attempt_accepted; exact H1). simpl.
  erewrite bind_returned by (apply attempt_accepted; exact H2). simpl.
  reflexivity.
Qed.

(** C5: for a patron whose list of active records is not empty,
    [return_book_by_patron] looks at the first record only.  When its book
    is not the requested one the operation fails at once with the message
    that the book is not being borrowed, whatever the later records are,
    and the store is as it was.  When it is the requested one and the store
    carries out the two writes, the operation succeeds: the active records
    of the patron for that book get the current time as return date, the
    available copies of the book go up by one, and no active record of the
    patron for that book is left. *)
Theorem return_inspects_first_record_only (w : World) (p : string) (bid : Z)
    (b : Book.t) (r : Borrowed.t) (rest : list Borrowed.t) :
  valid_patron_id p = true ->
  get_book_by_id bid w = (Returned (Some b), w) ->
  get_patron_borrowed_books p w = (Returned (r :: rest), w) ->
  (Borrowed.book_id r <> bid ->
   return_book_by_patron p bid w =
   (Returned (false, "This book is not currently being borrowed by you."), w))
  /\
  (Borrowed.book_id r = bid ->
   hd false (refusals w) = false ->
   hd false (tl (refusals w)) = false ->
   let w' :=
     mkWorld (map (adjust bid 1) (books w))
       (map (close p bid (clock w)) (borrow_records w))
       (clock w) (tl (tl (refusals w))) in
   return_book_by_patron p bid w =
     (Returned (true, "Successfully returned book."), w') /\
   get_book_by_id bid w' =
     (Returned
        (Some (Book.mk (Book.id b) (Book.title b) (Book.author b)
                 (Book.isbn b) (Book.total_copies b)
                 (Book.available_copies b + 1))), w') /\
   forall rows i,
     get_patron_borrowed_books p w' = (Returned rows, w') ->
     In i rows -> Borrowed.book_id i <> bid).
Proof.
  intros Hp Hb Hrows. split.
  - intros Hr. unfold return_book_by_patron.
    rewrite (valid_patron_id_passes p Hp).
    rewrite (bind_returned _ _ _ _ _ Hb).
    rewrite (bind_returned _ _ _ _ _ Hrows).
    rewrite first_record_scan. apply Z.eqb_neq in Hr. rewrite Hr.
    reflexivity.
  - intros Hr H1 H2 w'. split; [|split].
    + rewrite (return_after_scan w p bid b (r :: rest) Hp Hb Hrows)
        by (right; eauto).
      apply return_storage_accepted; assumption.
    + unfold get_book_by_id in *. apply query_inv in Hb.
      destruct Hb as [Hb _]. unfold query. subst w'. simpl.
      rewrite find_adjust, <- Hb. simpl. unfold adjust.
      assert (E : (Book.id b =? bid) = true).
      { symmetry in Hb. apply find_some in Hb. apply Hb. }
      rewrite E. reflexivity.
    + intros rows i Hget Hin.
      eapply no_active_row_after_close; [|exact Hget|exact Hin].
      reflexivity.
Qed.

(** C10: for a valid patron id with no active record and an existing book,
    [return_book_by_patron] skips the scan and goes on to the two storage
    calls, which alone decide what it reports; it never reports that the
    book is not being borrowed, and when the store carries out both writes
    it reports success and the available copies of the book go up by one. *)
Theorem return_without_active_record (w : World) (p : string) (bid : Z)
    (b : Book.t) :
  valid_patron_id p = true ->
  get_book_by_id bid w = (Returned (Some b), w) ->
  get_patron_borrowed_books p w = (Returned [], w) ->
  return_book_by_patron p bid w =
    (updated <- update_borrow_record_return_date p bid (clock w) ;;
     if negb updated then ret (false, "Error while updating return record.")
     else
       available <- update_book_availability bid 1 ;;
       if negb available then
         ret (false, "Error while updating book availability.")
       else ret (true, "Successfully returned book.")) w
  /\
  fst (return_book_by_patron p bid w) <>
    Returned (false, "This book is not currently being borrowed by you.")
  /\
  (forall fs, refusals w = true :: fs ->
     fst (return_book_by_patron p bid w) =
       Returned (false, "Error while updating return record."))
  /\
  (forall fs, refusals w = false :: true :: fs ->
     fst (return_book_by_patron p bid w) =
       Returned (false, "Error while updating book availability."))
  /\
  (hd false (refusals w) = false ->
   hd false (tl (refusals w)) = false ->
   return_book_by_patron p bid w =
     (Returned (true, "Successfully returned book."),
      mkWorld (map (adjust bid 1) (books w))
        (map (close p bid (clock w)) (borrow_records w))
        (clock w) (tl (tl (refusals w))))).
Proof.
  intros Hp Hb Hrows.
  pose proof (return_after_scan w p bid b [] Hp Hb Hrows (or_introl eq_refl))
    as Hrun.
  split; [exact Hrun|]. rewrite Hrun.
  assert (Hrefused : forall fs, refusals w = true :: fs ->
    fst ((updated <- update_borrow_record_return_date p bid (clock w) ;;
          if negb updated
          then ret (false, "Error while updating return record.")
          else
            available <- update_book_availability bid 1 ;;
            if negb available then
              ret (false, "Error while updating book availability.")
            else ret (true, "Successfully returned book.")) w)
    = Returned (false, "Error while updating return record.")).
  { intros fs Hfs. unfold update_borrow_record_return_date.
    erewrite bind_returned by (eapply attempt_refused; exact Hfs).
    reflexivity. }
  assert (Hsecond : forall fs, refusals w = false :: true :: fs ->
    fst ((updated <- update_borrow_record_return_date p bid (clock w) ;;
          if negb updated
          then ret (false, "Error while updating return record.")
          else
            available <- update_book_availability bid 1 ;;
            if negb available then
              ret (false, "Error while updating book availability.")
            else ret (true, "Successfully returned book.")) w)
    = Returned (false, "Error while updating book availability.")).
  { intros fs Hfs.
    unfold update_borrow_record_return_date, update_book_availability.
    erewrite bind_returned
      by (apply attempt_accepted; rewrite Hfs; reflexivity).
    simpl.
    erewrite bind_returned
      by (eapply attempt_refused; simpl; rewrite Hfs; reflexivity).
    reflexivity. }
  split; [|split; [exact Hrefused|split; [exact Hsecond|]]].
  - destruct (refusals w) as [|[|] [|[|] fs]] eqn:E.
    + rewrite return_storage_accepted by (rewrite E; reflexivity).
      simpl. discriminate.
    + rewrite (Hrefused _ eq_refl). discriminate.
    + rewrite (Hrefused _ eq_refl). discriminate.
    + rewrite (Hrefused _ eq_refl). discriminate.
    + rewrite return_storage_accepted by (rewrite E; reflexivity).
      simpl. discriminate.
    + rewrite (Hsecond _ eq_refl). discriminate.
    + rewrite return_storage_accepted by (rewrite E; reflexivity).
      simpl. discriminate.
  - intros H1 H2. apply return_storage_accepted; assumption.
Qed.

(** ** The search engine *)

(** A loop that appends the items passing a test gathers them in order. *)
Lemma filter_scan {X} (test : X -> bool)
    (body : X -> list X -> Ctl (list X) Empty_set) (l acc : list X) :
  (forall i results,
     body i results =
     if test i then Continue (results ++ [i])%list else Continue results) ->
  for_each l body acc = inl (acc ++ filter test l)%list.
Proof.
  intros Hbody. revert acc. induction l as [|x l IH]; intros acc; simpl.
  - rewrite app_nil_r. reflexivity.
  - rewrite Hbody. destruct (test x).
    + rewrite IH, <- app_assoc. reflexivity.
    + apply IH.
Qed.

Lemma search_by_isbn w term :
  search_books_in_catalog term "isbn" w =
  (Returned
     (if truthy term
      then filter
             (fun b => String.eqb (lower (Book.isbn b)) (lower (strip term)))
             (books w)
      else []), w).
Proof.
  unfold search_books_in_catalog.
  destruct (truthy term); simpl; [|reflexivity].
  unfold get_all_books. rewrite bind_query.
  rewrite (filter_scan
    (fun b => String.eqb (lower (Book.isbn b)) (lower (strip term))))
    by (intros; reflexivity).
  reflexivity.
Qed.

(** Among items with pairwise distinct keys at most one has a given key. *)
Lemma filter_unique_key {X} (key : X -> string) (k : string) (l : list X) :
  NoDup (map key l) ->
  (List.length (filter (fun x => String.eqb (key x) k) l) <= 1)%nat.
Proof.
  induction l as [|x l IH]; simpl; intros Hnd; [lia|].
  inversion Hnd as [|? ? Hnotin Hnd']; subst.
  destruct (String.eqb (key x) k) eqn:E; [|auto].
  apply String.eqb_eq in E. simpl.
  assert (Hnone : filter (fun y => String.eqb (key y) k) l = []).
  { clear IH Hnd Hnd'. induction l as [|y l IHl]; simpl; [reflexivity|].
    destruct (String.eqb (key y) k) eqn:Ey.
    - apply String.eqb_eq in Ey. exfalso. apply Hnotin.
      simpl. left. congruence.
    - apply IHl. intros Hin. apply Hnotin. simpl. right. exact Hin. }
  rewrite Hnone. simpl. lia.
Qed.

(** C9, as amended: in a catalog whose isbn values are pairwise distinct
    once lowered, a search of type isbn returns at most one entry, the
    store is as it was, and every entry returned is a book of the catalog
    whose lowered isbn is the trimmed and lowered term. *)
Theorem isbn_search_at_most_one (w : World) (term : string) :
  NoDup (map (fun b => lower (Book.isbn b)) (books w)) ->
  exists results,
    search_books_in_catalog term "isbn" w = (Returned results, w) /\
    (List.length results <= 1)%nat /\
    forall b, In b results ->
      In b (books w) /\ lower (Book.isbn b) = lower (strip term).
Proof.
  intros Hnd. eexists. split; [apply search_by_isbn|].
  destruct (truthy term).
  - split.
    + apply (filter_unique_key (fun b => lower (Book.isbn b))). exact Hnd.
    + intros b Hin. apply filter_In in Hin. destruct Hin as [Hin E].
      apply String.eqb_eq in E. auto.
  - split; [simpl; lia|]. intros b [].
Qed.

(** ** The fee calculator *)

(** Rounding an amount that is a whole number of cents. *)
Lemma round2_of_cents (x : Q) (c : Z) :
  (x * 100 == inject_Z c)%Q -> round2 x = Qred (c # 100).
Proof.
  intros H. unfold round2.
  assert (Hf : Qfloor (x * 100) = c) by (rewrite H; apply Qfloor_Z).
  rewrite Hf.
  assert (Hlt : ((x * 100 - inject_Z c) ?= (1 # 2))%Q = Lt).
  { rewrite H. unfold Qminus. rewrite Qplus_opp_r. reflexivity. }
  rewrite Hlt. reflexivity.
Qed.

Lemma round2_exact (x : Q) (c : Z) :
  (x * 100 == inject_Z c)%Q -> (round2 x == x)%Q /\ round2 (round2 x) = round2 x.
Proof.
  intros H. rewrite (round2_of_cents x c H).
  assert (E : (Qred (c # 100) == x)%Q).
  { rewrite Qred_correct. unfold Qeq in *. simpl in *. lia. }
  split; [exact E|].
  apply round2_of_cents. rewrite E. exact H.
Qed.

(** The fee before the cap, in cents, and when the cap applies. *)
Lemma weekly_fee_cents (a b : Z) :
  let fee := (inject_Z a * (1 # 2) + inject_Z b * 1)%Q in
  (fee * 100 == inject_Z (50 * a + 100 * b))%Q /\
  ((fee ?= 15)%Q = Gt <-> 1500 < 50 * a + 100 * b).
Proof.
  intros fee. subst fee. split.
  - unfold Qeq, Qplus, Qmult, inject_Z. cbn [Qnum Qden]. lia.
  - rewrite <- Qgt_alt. unfold Qlt, Qplus, Qmult, inject_Z. cbn [Qnum Qden]. lia.
Qed.

Lemma capped_fee_cents (d : Z) :
  let fee :=
    (inject_Z (Z.min d 7) * (1 # 2) + inject_Z (Z.max (d - 7) 0) * 1)%Q in
  let capped := match (fee ?= 15)%Q with Gt => 15%Q | _ => fee end in
  (capped * 100 ==
   inject_Z (Z.min (50 * Z.min d 7 + 100 * Z.max (d - 7) 0) 1500))%Q.
Proof.
  intros fee capped.
  destruct (weekly_fee_cents (Z.min d 7) (Z.max (d - 7) 0)) as [Hc Hgt].
  fold fee in Hc, Hgt. subst capped.
  set (c := 50 * Z.min d 7 + 100 * Z.max (d - 7) 0) in *.
  destruct (fee ?= 15)%Q eqn:E.
  - rewrite Hc. replace (Z.min c 1500) with c; [reflexivity|].
    assert (~ 1500 < c) by (rewrite <- Hgt; discriminate). lia.
  - rewrite Hc. replace (Z.min c 1500) with c; [reflexivity|].
    assert (~ 1500 < c) by (rewrite <- Hgt; discriminate). lia.
  - replace (Z.min c 1500) with 1500; [reflexivity|].
    assert (1500 < c) by (apply Hgt; reflexivity). lia.
Qed.

Lemma quote_found w p bid r rest :
  get_patron_borrowed_books p w = (Returned (r :: rest), w) ->
  Borrowed.book_id r = bid ->
  let d := Z.max (date (clock w) - date (Borrowed.due_date r)) 0 in
  calculate_late_fee_for_book p bid w =
  (Returned
     (FeeQuote.mk
        (Qred (Z.min (50 * Z.min d 7 + 100 * Z.max (d - 7) 0) 1500 # 100))
        d (if d <=? 0 then "On time" else "Overdue")), w).
Proof.
  intros Hrows Hr d. unfold calculate_late_fee_for_book.
  rewrite (bind_returned _ _ _ _ _ Hrows).
  rewrite first_record_scan. apply Z.eqb_eq in Hr. rewrite Hr.
  unfold datetime_now. rewrite bind_query. fold d.
  destruct (d <=? 0) eqn:Ed.
  - unfold ret. do 3 f_equal.
    apply Z.leb_le in Ed. assert (d = 0) as -> by (subst d; lia).
    reflexivity.
  - unfold ret. do 3 f_equal.
    apply round2_of_cents. apply capped_fee_cents.
Qed.

(** C3: when [calculate_late_fee_for_book] finds the record (the first
    active record of the patron is for the requested book), with [d] the
    number of days overdue, never negative: the quote reports [d]; the fee
    is [0.5 * d] for [d] up to 7, and [3.5 + 1.0 * (d - 7)] capped at 15.00
    beyond; it is at most 15.00 and is its own rounding to two decimals;
    [d = 0] gives a fee of 0 and the status On time, a positive [d] the
    status Overdue; 5, 10 and 40 days give 2.50, 6.50 and 15.00. *)
Theorem late_fee_schedule (w : World) (p : string) (bid : Z)
    (r : Borrowed.t) (rest : list Borrowed.t) :
  get_patron_borrowed_books p w = (Returned (r :: rest), w) ->
  Borrowed.book_id r = bid ->
  let d := Z.max (date (clock w) - date (Borrowed.due_date r)) 0 in
  exists q,
    calculate_late_fee_for_book p bid w = (Returned q, w) /\
    FeeQuote.days_overdue q = d /\
    (0 <= d <= 7 -> (FeeQuote.fee_amount q == 0.5 * inject_Z d)%Q) /\
    (7 < d ->
     (FeeQuote.fee_amount q == Qmin (3.5 + 1.0 * inject_Z (d - 7)) 15.00)%Q) /\
    (FeeQuote.fee_amount q <= 15.00)%Q /\
    round2 (FeeQuote.fee_amount q) = FeeQuote.fee_amount q /\
    (d = 0 ->
     FeeQuote.fee_amount q = 0%Q /\ FeeQuote.status q = "On time") /\
    (0 < d -> FeeQuote.status q = "Overdue") /\
    (d = 5 -> FeeQuote.fee_amount q = (5 # 2)%Q) /\
    (d = 10 -> FeeQuote.fee_amount q = (13 # 2)%Q) /\
    (d = 40 -> FeeQuote.fee_amount q = 15%Q).
Proof.
  intros Hrows Hr d.
  eexists. split; [apply (quote_found w p bid r rest); assumption|].
  fold d. cbn [FeeQuote.fee_amount FeeQuote.days_overdue FeeQuote.status].
  set (c := Z.min (50 * Z.min d 7 + 100 * Z.max (d - 7) 0) 1500).
  split; [reflexivity|].
  split; [|split; [|split; [|split; [|split; [|split;[|split;[|split]]]]]]].
  - intros Hd. rewrite Qred_correct.
    assert (c = 50 * d) as -> by (subst c; lia).
    unfold Qeq, Qmult, inject_Z. cbn [Qnum Qden]. lia.
  - intros Hd. rewrite Qred_correct.
    destruct (Z_le_gt_dec d 18) as [Hle|Hgt].
    + rewrite Q.min_l.
      * assert (c = 100 * d - 350) as -> by (subst c; lia).
        unfold Qeq, Qplus, Qmult, inject_Z. cbn [Qnum Qden]. lia.
      * unfold Qle, Qplus, Qmult, inject_Z. cbn [Qnum Qden]. lia.
    + rewrite Q.min_r.
      * assert (c = 1500) as -> by (subst c; lia). reflexivity.
      * unfold Qle, Qplus, Qmult, inject_Z. cbn [Qnum Qden]. lia.
  - rewrite Qred_correct. unfold Qle. cbn [Qnum Qden]. subst c. lia.
  - apply round2_of_cents. rewrite Qred_correct.
    unfold Qeq, Qmult, inject_Z. cbn [Qnum Qden]. lia.
  - intros E. subst c. rewrite E. split; reflexivity.
  - intros Hd. destruct (d <=? 0) eqn:E; [|reflexivity].
    apply Z.leb_le in E. lia.
  - intros E. subst c. rewrite E. reflexivity.
  - intros E. subst c. rewrite E. reflexivity.
  - intros E. subst c. rewrite E. reflexivity.
Qed.

(** ** Runs of the service on the sample stores *)

Lemma quote_raises_on_empty_list w p bid :
  get_patron_borrowed_books p w = (Returned [], w) ->
  calculate_late_fee_for_book p bid w =
  (Raised (TypeError "'NoneType' object is not subscriptable"), w).
Proof.
  intros H. unfold calculate_late_fee_for_book.
  rewrite (bind_returned _ _ _ _ _ H). reflexivity.
Qed.

(** C1: [calculate_late_fee_for_book] does not return a quote for a patron
    without active record: with the list empty the loop leaves [borrowed]
    at [None] and reading its due date raises.  Seen on the small library
    for the patron abc and for the patron 123456. *)
Theorem quote_raises_without_active_record :
  get_patron_borrowed_books "abc" small_library =
    (Returned [], small_library) /\
  calculate_late_fee_for_book "abc" 2 small_library =
    (Raised (TypeError "'NoneType' object is not subscriptable"),
     small_library) /\
  calculate_late_fee_for_book "123456" 9999 small_library =
    (Raised (TypeError "'NoneType' object is not subscriptable"),
     small_library).
Proof.
  split; [reflexivity|].
  split; apply quote_raises_on_empty_list; reflexivity.
Qed.

(** C2: a patron with five active loans is granted a sixth: the test of
    [borrow_book_by_patron] is [current_borrowed > 5].  Only the seventh
    request is turned down, with the message that names a limit of five. *)
Theorem sixth_loan_accepted :
  get_patron_borrow_count "777777" five_loans = (Returned 5, five_loans) /\
  (let (replies, w6) := serve_all [Borrow "777777" 3] five_loans in
   replies = [Some true] /\
   get_patron_borrow_count "777777" w6 = (Returned 6, w6) /\
   fst (borrow_book_by_patron "777777" 3 w6) =
     Returned
       (false, "You have reached the maximum borrowing limit of 5 books.")).
Proof. vm_compute. repeat split. Qed.

(** C4: the bound [0 <= available <= total] is lost on two runs from a
    store that meets it.  A borrow whose record is written and whose
    decrement is refused, followed by the return of that record, leaves
    book 2 with 2 available copies out of 1; so does a return by a patron
    who has no active record. *)
Theorem availability_exceeds_total :
  copies_in_range failing_store = true /\
  (let (replies, w) :=
     serve_all [Borrow "222222" 2; ReturnBook "222222" 2] failing_store in
   replies = [Some false; Some true] /\
   map Book.available_copies (books w) = [3; 2; 10] /\
   map Book.total_copies (books w) = [3; 1; 10] /\
   copies_in_range w = false) /\
  copies_in_range small_library = true /\
  (let (replies, w) := serve_all [ReturnBook "111111" 2] small_library in
   replies = [Some true] /\
   map Book.available_copies (books w) = [3; 2; 10] /\
   map Book.total_copies (books w) = [3; 1; 10] /\
   copies_in_range w = false).
Proof. vm_compute. repeat split. Qed.

(** C6: with two active loans, both ten days overdue, the entry of the
    second loan does not carry its fee: the quote asked for its book stops
    at the first record of the patron and answers that the book is not
    being borrowed, and the total is the fee of the first loan alone. *)
Theorem second_overdue_loan_reported_unborrowed :
  map (fun r =>
         date (clock two_loans_overdue) - date (BorrowRecord.due_date r))
    (borrow_records two_loans_overdue) = [10; 10] /\
  exists report,
    get_patron_status_report "123456" two_loans_overdue =
      (Returned report, two_loans_overdue) /\
    map (fun e =>
           (Detail.book_id e, Detail.days_overdue e, Detail.late_fee e,
            Detail.status e))
      (StatusReport.borrowed_books report) =
      [(1, 10, (13 # 2)%Q, "Overdue"); (2, 0, 0%Q, "Not being borrowed")] /\
    StatusReport.total_late_fee report = (13 # 2)%Q.
Proof.
  split; [reflexivity|].
  eexists. split; [reflexivity|]. split; reflexivity.
Qed.

(** C9, as stated, fails: the two books of [case_variants], both inserted
    by [add_book_to_catalog], have distinct isbn values, and the search
    returns both. *)
Lemma isbn_search_two_entries :
  fst (serve_all
         [AddBook "First" "Author" "978045152493X" 1;
          AddBook "Second" "Author" "978045152493x" 1]
         (mkWorld [] [] noon [])) = [Some true; Some true] /\
  NoDup (map Book.isbn (books case_variants)) /\
  exists results,
    search_books_in_catalog "978045152493x" "isbn" case_variants =
      (Returned results, case_variants) /\
    List.length results = 2%nat.
Proof.
  split; [reflexivity|]. split.
  - repeat constructor; simpl; intuition discriminate.
  - exists (books case_variants). split; reflexivity.
Qed.

(** ** The theorems at work on the sample stores *)

Lemma late_fee_schedule_witness :
  get_patron_borrowed_books "123456" two_loans_overdue =
    (Returned [gatsby_loan; nineteen84_loan], two_loans_overdue) /\
  Borrowed.book_id gatsby_loan = 1 /\
  exists q,
    calculate_late_fee_for_book "123456" 1 two_loans_overdue =
      (Returned q, two_loans_overdue) /\
    FeeQuote.days_overdue q = 10 /\
    FeeQuote.fee_amount q = (13 # 2)%Q /\
    FeeQuote.status q = "Overdue".
Proof.
  split; [reflexivity|]. split; [reflexivity|].
  destruct (late_fee_schedule two_loans_overdue "123456" 1 gatsby_loan
              [nineteen84_loan] eq_refl eq_refl)
    as (q & Hq & Hd & _ & _ & _ & _ & _ & Hs & _ & H10 & _).
  exists q. split; [exact Hq|]. split; [exact Hd|].
  split; [apply H10; reflexivity|apply Hs; reflexivity].
Defined.

Lemma return_inspects_first_record_only_witness :
  valid_patron_id "123456" = true /\
  get_patron_borrowed_books "123456" two_loans =
    (Returned [gatsby_loan; nineteen84_loan], two_loans) /\
  return_book_by_patron "123456" 2 two_loans =
    (Returned (false, "This book is not currently being borrowed by you."),
     two_loans) /\
  fst (return_book_by_patron "123456" 1 two_loans) =
    Returned (true, "Successfully returned book.").
Proof.
  split; [reflexivity|]. split; [reflexivity|]. split.
  - apply (proj1 (return_inspects_first_record_only two_loans "123456" 2
                    nineteen84_lent gatsby_loan [nineteen84_loan]
                    eq_refl eq_refl eq_refl)).
    discriminate.
  - destruct (proj2 (return_inspects_first_record_only two_loans "123456" 1
                       (Book.mk 1 "The Great Gatsby" "F. Scott Fitzgerald"
                          "9780743273565" 3 2)
                       gatsby_loan [nineteen84_loan]
                       eq_refl eq_refl eq_refl) eq_refl eq_refl eq_refl)
      as [H _].
    rewrite H. reflexivity.
Defined.

Lemma availability_moves_by_one_witness :
  (get_book_by_id 2 two_loans = (Returned (Some nineteen84_lent), two_loans) /\
   exists msg,
     borrow_book_by_patron "654321" 2 two_loans =
       (Returned (false, msg), two_loans)) /\
  (fst (serve_all [Borrow "123456" 1] small_library) = [Some true] /\
   books (snd (borrow_book_by_patron "123456" 1 small_library)) =
     map (adjust 1 (-1)) (books small_library)) /\
  (fst (serve_all [ReturnBook "123456" 1] two_loans) = [Some true] /\
   books (snd (return_book_by_patron "123456" 1 two_loans)) =
     map (adjust 1 1) (books two_loans)).
Proof.
  split; [|split].
  - split; [reflexivity|].
    exact (proj1 (availability_moves_by_one two_loans "654321" 2)
             nineteen84_lent eq_refl eq_refl).
  - split; [reflexivity|].
    exact (proj1 (proj2 (availability_moves_by_one small_library "123456" 1))
             (snd (match fst (borrow_book_by_patron "123456" 1 small_library)
                   with Returned r => r | Raised _ => (false, EmptyString)
                   end))
             _ eq_refl).
  - split; [reflexivity|].
    exact (proj2 (proj2 (availability_moves_by_one two_loans "123456" 1))
             "Successfully returned book." _ eq_refl).
Defined.

Lemma add_book_rejections_witness :
  (strip "   " = EmptyString /\
   exists msg,
     add_book_to_catalog "   " "Author" "1234567890123" 1 small_library =
       (Returned (false, msg), small_library)) /\
  (get_book_by_isbn "9780451524935" small_library =
     (Returned (Some nineteen84), small_library) /\
   add_book_to_catalog "Nineteen Eighty-Four" "G. Orwell" "9780451524935" 7
     small_library =
     (Returned (false, "A book with this ISBN already exists."),
      small_library)) /\
  (fst (serve_all [AddBook "1984" "George Orwell" "9876543210123" 4]
          small_library) = [Some true] /\
   let w1 :=
     snd (add_book_to_catalog "1984" "George Orwell" "9876543210123" 4
            small_library) in
   add_book_to_catalog "1984" "George Orwell" "9876543210123" 4 w1 =
     (Returned (false, "A book with this ISBN already exists."), w1) /\
   add_book_to_catalog "Animal Farm" "George Orwell" "9876543210123" 2 w1 =
     (Returned (false, "A book with this ISBN already exists."), w1)).
Proof.
  split; [|split].
  - split; [reflexivity|].
    exact (proj1 (add_book_rejections small_library "   " "Author"
                    "1234567890123" 1) (or_introl eq_refl)).
  - split; [reflexivity|].
    apply (proj1 (proj2 (add_book_rejections small_library
                           "Nineteen Eighty-Four" "G. Orwell"
                           "9780451524935" 7)));
      [exists nineteen84; reflexivity | discriminate
      | vm_compute; discriminate | discriminate
      | vm_compute; discriminate | reflexivity | reflexivity].
  - split; [reflexivity|].
    destruct (proj2 (proj2 (add_book_rejections small_library "1984"
                              "George Orwell" "9876543210123" 4))
                ("Book " ++ dquote ++ "1984" ++ dquote ++
                 " has been successfully added to the catalog.")
                _ eq_refl) as [Hsame Hany].
    split; [exact Hsame|].
    apply (proj2 (Hany "Animal Farm" "George Orwell" 2));
      [discriminate | vm_compute; discriminate | discriminate
      | vm_compute; discriminate | reflexivity].
Defined.

Lemma isbn_search_at_most_one_witness :
  NoDup (map (fun b => lower (Book.isbn b)) (books small_library)) /\
  exists results,
    search_books_in_catalog " 9780451524935 " "isbn" small_library =
      (Returned results, small_library) /\
    (List.length results <= 1)%nat /\
    forall b, In b results ->
      In b (books small_library) /\
      lower (Book.isbn b) = lower (strip " 9780451524935 ").
Proof.
  assert (H : NoDup (map (fun b => lower (Book.isbn b)) (books small_library))).
  { repeat constructor; simpl; intuition discriminate. }
  split; [exact H|].
  exact (isbn_search_at_most_one small_library " 9780451524935 " H).
Defined.

Lemma return_without_active_record_witness :
  valid_patron_id "111111" = true /\
  get_book_by_id 2 small_library = (Returned (Some nineteen84), small_library) /\
  get_patron_borrowed_books "111111" small_library =
    (Returned [], small_library) /\
  fst (return_book_by_patron "111111" 2 small_library) <>
    Returned (false, "This book is not currently being borrowed by you.") /\
  return_book_by_patron "111111" 2 small_library =
    (Returned (true, "Successfully returned book."),
     mkWorld (map (adjust 2 1) (books small_library))
       (map (close "111111" 2 (clock small_library))
          (borrow_records small_library))
       (clock small_library) (tl (tl (refusals small_library)))).
Proof.
  split; [reflexivity|]. split; [reflexivity|]. split; [reflexivity|].
  destruct (return_without_active_record small_library "111111" 2 nineteen84
              eq_refl eq_refl eq_refl) as (_ & Hnot & _ & _ & Hok).
  split; [exact Hnot|]. apply Hok; reflexivity.
Defined.

(** * Further properties of the service *)

(** ** Rejected requests *)

Lemma invalid_patron_id_fails p :
  len p <> 6 \/ isdigit p = false ->
  (negb (truthy p) || negb (isdigit p) || negb (len p =? 6))%bool = true.
Proof.
  intros [H|H].
  - apply Z.eqb_neq in H. rewrite H. simpl. apply orb_true_r.
  - rewrite H. simpl. rewrite orb_true_r. reflexivity.
Qed.

(** X1: a patron id that is not six characters long, or not made of
    digits, is turned down by [borrow_book_by_patron] and
    [return_book_by_patron] with the same message and the store untouched,
    and [get_patron_status_report] answers the empty report for it. *)
Theorem malformed_patron_id (w : World) (p : string) (bid : Z) :
  len p <> 6 \/ isdigit p = false ->
  borrow_book_by_patron p bid w =
    (Returned (false, "Invalid patron ID. Must be exactly 6 digits."), w) /\
  return_book_by_patron p bid w =
    (Returned (false, "Invalid patron ID. Must be exactly 6 digits."), w) /\
  get_patron_status_report p w =
    (Returned (StatusReport.mk p 0 [] [] 0), w).
Proof.
  intros H. apply invalid_patron_id_fails in H.
  unfold borrow_book_by_patron, return_book_by_patron,
    get_patron_status_report.
  rewrite H. repeat split.
Qed.

Lemma malformed_patron_id_witness :
  (len "abc123" <> 6 \/ isdigit "abc123" = false) /\
  borrow_book_by_patron "abc123" 1 small_library =
    (Returned (false, "Invalid patron ID. Must be exactly 6 digits."),
     small_library) /\
  return_book_by_patron "1234567" 1 small_library =
    (Returned (false, "Invalid patron ID. Must be exactly 6 digits."),
     small_library).
Proof.
  split; [right; reflexivity|]. split.
  - exact (proj1 (malformed_patron_id small_library "abc123" 1
                    (or_intror eq_refl))).
  - apply (malformed_patron_id small_library "1234567" 1).
    left. discriminate.
Defined.

(** X2: for a well-formed patron id, a book id that the catalog does not
    hold makes both [borrow_book_by_patron] and [return_book_by_patron]
    answer that the book is not found, the store untouched. *)
Theorem unknown_book (w : World) (p : string) (bid : Z) :
  valid_patron_id p = true ->
  get_book_by_id bid w = (Returned None, w) ->
  borrow_book_by_patron p bid w = (Returned (false, "Book not found."), w) /\
  return_book_by_patron p bid w = (Returned (false, "Book not found."), w).
Proof.
  intros Hp Hb. unfold borrow_book_by_patron, return_book_by_patron.
  rewrite (valid_patron_id_passes p Hp).
  rewrite !(bind_returned _ _ _ _ _ Hb). split; reflexivity.
Qed.

Lemma unknown_book_witness :
  valid_patron_id "123456" = true /\
  get_book_by_id 9999 two_loans = (Returned None, two_loans) /\
  borrow_book_by_patron "123456" 9999 two_loans =
    (Returned (false, "Book not found."), two_loans) /\
  return_book_by_patron "123456" 9999 two_loans =
    (Returned (false, "Book not found."), two_loans).
Proof.
  split; [reflexivity|]. split; [reflexivity|].
  exact (unknown_book two_loans "123456" 9999 eq_refl eq_refl).
Defined.

(** ** More on the catalog manager *)

(** X3: [add_book_to_catalog] checks title, author, isbn and number of
    copies in that order and reports the first check that fails, each with
    its own message, without touching the store. *)
Theorem add_book_first_failure_wins (w : World) (title author isbn : string)
    (n : Z) :
  (strip title <> EmptyString -> 200 < len (strip title) ->
   add_book_to_catalog title author isbn n w =
     (Returned (false, "Title must be less than 200 characters."), w)) /\
  (strip title <> EmptyString -> len (strip title) <= 200 ->
   (strip author = EmptyString ->
    add_book_to_catalog title author isbn n w =
      (Returned (false, "Author is required."), w)) /\
   (strip author <> EmptyString -> 100 < len (strip author) ->
    add_book_to_catalog title author isbn n w =
      (Returned (false, "Author must be less than 100 characters."), w)) /\
   (strip author <> EmptyString -> len (strip author) <= 100 ->
    (len isbn <> 13 ->
     add_book_to_catalog title author isbn n w =
       (Returned (false, "ISBN must be exactly 13 digits."), w)) /\
    (len isbn = 13 -> n <= 0 ->
     add_book_to_catalog title author isbn n w =
       (Returned (false, "Total copies must be a positive integer."), w)))).
Proof.
  split.
  - intros Ht Hl. unfold add_book_to_catalog.
    rewrite (nonblank_passes _ Ht), (gtb_true_of_lt _ _ Hl). reflexivity.
  - intros Ht Hl. split; [|split].
    + intros Ha. unfold add_book_to_catalog.
      rewrite (nonblank_passes _ Ht), (gtb_false_of_le _ _ Hl),
        (blank_fails _ Ha). reflexivity.
    + intros Ha Hal. unfold add_book_to_catalog.
      rewrite (nonblank_passes _ Ht), (gtb_false_of_le _ _ Hl),
        (nonblank_passes _ Ha), (gtb_true_of_lt _ _ Hal). reflexivity.
    + intros Ha Hal. split.
      * intros Hi. unfold add_book_to_catalog.
        rewrite (nonblank_passes _ Ht), (gtb_false_of_le _ _ Hl),
          (nonblank_passes _ Ha), (gtb_false_of_le _ _ Hal).
        apply Z.eqb_neq in Hi. rewrite Hi. reflexivity.
      * intros Hi Hn. unfold add_book_to_catalog.
        rewrite (nonblank_passes _ Ht), (gtb_false_of_le _ _ Hl),
          (nonblank_passes _ Ha), (gtb_false_of_le _ _ Hal).
        apply Z.eqb_eq in Hi. rewrite Hi. apply Z.leb_le in Hn. rewrite Hn.
        reflexivity.
Qed.

Lemma add_book_first_failure_wins_witness :
  add_book_to_catalog "Book" "   " "12345" 0 small_library =
    (Returned (false, "Author is required."), small_library) /\
  add_book_to_catalog "Book" "Author" "12345" 0 small_library =
    (Returned (false, "ISBN must be exactly 13 digits."), small_library) /\
  add_book_to_catalog "Book" "Author" "1234567890123" 0 small_library =
    (Returned (false, "Total copies must be a positive integer."),
     small_library).
Proof.
  split; [|split].
  - apply (proj2 (add_book_first_failure_wins small_library "Book" "   "
                    "12345" 0)); [discriminate|vm_compute; discriminate|].
    reflexivity.
  - apply (proj2 (add_book_first_failure_wins small_library "Book" "Author"
                    "12345" 0));
      [discriminate|vm_compute; discriminate|discriminate
      |vm_compute; discriminate|vm_compute; discriminate].
  - apply (proj2 (add_book_first_failure_wins small_library "Book" "Author"
                    "1234567890123" 0));
      [discriminate|vm_compute; discriminate|discriminate
      |vm_compute; discriminate|reflexivity|vm_compute; discriminate].
Defined.

Lemma id_below_fresh (bs : list Book.t) (b : Book.t) :
  In b bs -> Book.id b < fresh_id bs.
Proof.
  unfold fresh_id. induction bs as [|x bs IH]; cbn [map fold_right In];
    [tauto|].
  intros [->|H]; [lia|]. specialize (IH H). lia.
Qed.

Lemma fresh_id_unused (bs : list Book.t) :
  find (fun b => Book.id b =? fresh_id bs) bs = None.
Proof.
  destruct (find _ bs) as [b|] eqn:E; [|reflexivity].
  apply find_some in E. destruct E as [Hin E].
  apply Z.eqb_eq in E. apply id_below_fresh in Hin. lia.
Qed.

Lemma find_app_last {X} (f : X -> bool) (l : list X) (x : X) :
  find f l = None -> f x = true -> find f (l ++ [x]) = Some x.
Proof.
  intros Hl Hx. induction l as [|y l IH]; simpl in *.
  - rewrite Hx. reflexivity.
  - destruct (f y); [discriminate|]. apply IH. exact Hl.
Qed.

Lemma add_book_checked w title author isbn n :
  strip title <> EmptyString -> len (strip title) <= 200 ->
  strip author <> EmptyString -> len (strip author) <= 100 ->
  len isbn = 13 -> 0 < n ->
  get_book_by_isbn isbn w = (Returned None, w) ->
  add_book_to_catalog title author isbn n w =
  (success <- insert_book (strip title) (strip author) isbn n n ;;
   if success : bool then
     ret (true,
          "Book " ++ dquote ++ strip title ++ dquote ++
          " has been successfully added to the catalog.")
   else ret (false, "Database error occurred while adding the book.")) w.
Proof.
  intros Ht Hl Ha Hal Hi Hn Hnew. unfold add_book_to_catalog.
  rewrite (nonblank_passes _ Ht), (gtb_false_of_le _ _ Hl),
    (nonblank_passes _ Ha), (gtb_false_of_le _ _ Hal).
  apply Z.eqb_eq in Hi. rewrite Hi. cbn [negb].
  assert (Hn' : (n <=? 0) = false) by (apply Z.leb_gt; exact Hn).
  rewrite Hn'. rewrite (bind_returned _ _ _ _ _ Hnew). reflexivity.
Qed.

(** X4: a request with a title and an author that are not blank and within
    200 and 100 characters once trimmed, an isbn of 13 characters that the
    catalog does not hold and a positive number of copies, on a store that
    carries out the write, succeeds: the catalog gains one book, last,
    with a fresh id, the trimmed title and author, and all its copies
    available; looking it up by isbn or by id finds it. *)
Theorem add_book_accepted (w : World) (title author isbn : string) (n : Z) :
  strip title <> EmptyString -> len (strip title) <= 200 ->
  strip author <> EmptyString -> len (strip author) <= 100 ->
  len isbn = 13 -> 0 < n ->
  get_book_by_isbn isbn w = (Returned None, w) ->
  hd false (refusals w) = false ->
  let book :=
    Book.mk (fresh_id (books w)) (strip title) (strip author) isbn n n in
  let w' :=
    mkWorld (books w ++ [book]) (borrow_records w) (clock w)
      (tl (refusals w)) in
  add_book_to_catalog title author isbn n w =
    (Returned
       (true,
        "Book " ++ dquote ++ strip title ++ dquote ++
        " has been successfully added to the catalog."), w') /\
  get_book_by_isbn isbn w' = (Returned (Some book), w') /\
  get_book_by_id (Book.id book) w' = (Returned (Some book), w') /\
  ~ In (Book.id book) (map Book.id (books w)).
Proof.
  intros Ht Hl Ha Hal Hi Hn Hnew Hok book w'.
  split; [|split; [|split]].
  - rewrite (add_book_checked w title author isbn n) by assumption.
    unfold insert_book.
    erewrite bind_returned by (apply attempt_accepted; exact Hok).
    reflexivity.
  - unfold get_book_by_isbn in *. apply query_inv in Hnew.
    destruct Hnew as [Hnew _]. unfold query. subst w'. simpl.
    rewrite find_app_last; [reflexivity|auto|]. subst book. simpl.
    apply String.eqb_refl.
  - unfold get_book_by_id, query. subst w'. simpl.
    rewrite find_app_last; [reflexivity|apply fresh_id_unused|].
    subst book. simpl. apply Z.eqb_refl.
  - intros Hin. apply in_map_iff in Hin. destruct Hin as [x [Hx Hin]].
    apply id_below_fresh in Hin. subst book. simpl in Hx. lia.
Qed.

Lemma add_book_accepted_witness :
  get_book_by_isbn "9780451526342" small_library =
    (Returned None, small_library) /\
  let book := Book.mk 4 "Animal Farm" "George Orwell" "9780451526342" 2 2 in
  let w' :=
    mkWorld (books small_library ++ [book]) [] noon [] in
  fst (add_book_to_catalog "  Animal Farm " " George Orwell" "9780451526342"
         2 small_library) =
    Returned
      (true,
       "Book " ++ dquote ++ "Animal Farm" ++ dquote ++
       " has been successfully added to the catalog.") /\
  get_book_by_isbn "9780451526342" w' = (Returned (Some book), w') /\
  get_book_by_id 4 w' = (Returned (Some book), w').
Proof.
  split; [reflexivity|].
  destruct (add_book_accepted small_library "  Animal Farm " " George Orwell"
              "9780451526342" 2) as (H1 & H2 & H3 & _);
    try reflexivity; try discriminate; try (vm_compute; discriminate).
  split; [rewrite H1; reflexivity|]. split; [exact H2|exact H3].
Defined.

(** X5: the same request on a store that refuses the write fails with the
    database message, and the catalog and the borrow records are as they
    were. *)
Theorem add_book_store_failure (w : World) (title author isbn : string)
    (n : Z) (fs : list bool) :
  strip title <> EmptyString -> len (strip title) <= 200 ->
  strip author <> EmptyString -> len (strip author) <= 100 ->
  len isbn = 13 -> 0 < n ->
  get_book_by_isbn isbn w = (Returned None, w) ->
  refusals w = true :: fs ->
  add_book_to_catalog title author isbn n w =
    (Returned (false, "Database error occurred while adding the book."),
     mkWorld (books w) (borrow_records w) (clock w) fs).
Proof.
  intros Ht Hl Ha Hal Hi Hn Hnew Hfs.
  rewrite (add_book_checked w title author isbn n) by assumption.
  unfold insert_book.
  erewrite bind_returned by (eapply attempt_refused; exact Hfs).
  unfold pop_refusal. rewrite Hfs. reflexivity.
Qed.

Lemma add_book_store_failure_witness :
  add_book_to_catalog "Animal Farm" "George Orwell" "9780451526342" 2
    (mkWorld (books small_library) [] noon [true]) =
  (Returned (false, "Database error occurred while adding the book."),
   small_library).
Proof.
  apply (add_book_store_failure (mkWorld (books small_library) [] noon [true])
           "Animal Farm" "George Orwell" "9780451526342" 2 []);
    try reflexivity; try discriminate; try (vm_compute; discriminate).
Defined.

(** ** What a request may do to the store *)

Lemma ret_inv {A} (a : A) w r w' :
  ret a w = (r, w') -> r = Returned a /\ w' = w.
Proof. unfold ret. intros H. inversion H. auto. Qed.

Lemma add_book_effect w title author isbn n r w' :
  add_book_to_catalog title author isbn n w = (r, w') ->
  borrow_records w' = borrow_records w /\ clock w' = clock w /\
  (books w' = books w \/
   (books w' =
      (books w ++
       [Book.mk (fresh_id (books w)) (strip title) (strip author) isbn n n])%list
    /\ 0 < n /\
    find (fun b => String.eqb (Book.isbn b) isbn) (books w) = None)).
Proof.
  unfold add_book_to_catalog.
  repeat match goal with
         | |- context [if ?c then _ else _] =>
             destruct c eqn:?;
             [intros H; apply ret_inv in H; destruct H as [_ ->]; auto|]
         end.
  unfold get_book_by_isbn. rewrite bind_query.
  destruct (find _ (books w)) eqn:Efind;
    [intros H; apply ret_inv in H; destruct H as [_ ->]; auto|].
  unfold insert_book, bind.
  match goal with |- context [attempt ?f w] =>
    destruct (attempt f w) as [r1 w1] eqn:E1;
    destruct (attempt_inv _ _ _ _ E1) as [[-> ->]|[-> ->]]
  end; intros H; apply ret_inv in H; destruct H as [_ ->]; simpl; auto.
  repeat split; auto. right. repeat split; auto.
  match goal with H : (n <=? 0) = false |- _ => apply Z.leb_gt in H; exact H end.
Qed.

Lemma borrow_effect w p bid r w' :
  borrow_book_by_patron p bid w = (r, w') ->
  clock w' = clock w /\
  (((exists msg, r = Returned (false, msg)) /\
    books w' = books w /\ borrow_records w' = borrow_records w) \/
   (valid_patron_id p = true /\ active_loans p w <= 5 /\
    (exists b,
       find (fun b => Book.id b =? bid) (books w) = Some b /\
       0 < Book.available_copies b) /\
    borrow_records w' =
      (borrow_records w ++
       [BorrowRecord.mk p bid (clock w) (add_days (clock w) 14) None])%list /\
    (books w' = books w \/ books w' = map (adjust bid (-1)) (books w)))).
Proof.
  unfold borrow_book_by_patron.
  destruct (negb (truthy p) || negb (isdigit p) || negb (len p =? 6))%bool
    eqn:Ep;
    [intros H; apply ret_inv in H; destruct H as [-> ->]; eauto 6|].
  assert (Hp : valid_patron_id p = true).
  { unfold valid_patron_id.
    destruct (truthy p), (isdigit p), (len p =? 6); simpl in Ep;
      try discriminate; reflexivity. }
  unfold get_book_by_id. rewrite bind_query.
  destruct (find _ (books w)) as [b|] eqn:Efind;
    [|intros H; apply ret_inv in H; destruct H as [-> ->]; eauto 6].
  destruct (Book.available_copies b <=? 0) eqn:Ea;
    [intros H; apply ret_inv in H; destruct H as [-> ->]; eauto 6|].
  apply Z.leb_gt in Ea.
  unfold get_patron_borrow_count. rewrite bind_query.
  fold (active_loans p w).
  destruct (active_loans p w >? 5) eqn:Ec;
    [intros H; apply ret_inv in H; destruct H as [-> ->]; eauto 6|].
  assert (Hc : active_loans p w <= 5).
  { rewrite Z.gtb_ltb in Ec. apply Z.ltb_ge in Ec. exact Ec. }
  unfold datetime_now. rewrite bind_query.
  unfold insert_borrow_record, update_book_availability, bind.
  match goal with |- context [attempt ?f w] =>
    destruct (attempt f w) as [r1 w1] eqn:E1;
    destruct (attempt_inv _ _ _ _ E1) as [[-> ->]|[-> ->]]
  end; simpl;
    [intros H; apply ret_inv in H; destruct H as [-> ->]; eauto 6|].
  match goal with |- context [attempt ?f ?x] =>
    destruct (attempt f x) as [r2 w2] eqn:E2;
    destruct (attempt_inv _ _ _ _ E2) as [[-> ->]|[-> ->]]
  end; simpl; intros H; apply ret_inv in H; destruct H as [_ ->]; simpl;
    (split; [reflexivity|]); right; repeat split; eauto.
Qed.

Lemma return_effect w p bid r w' :
  return_book_by_patron p bid w = (r, w') ->
  clock w' = clock w /\
  (borrow_records w' = borrow_records w \/
   borrow_records w' = map (close p bid (clock w)) (borrow_records w)) /\
  (books w' = books w \/ books w' = map (adjust bid 1) (books w)).
Proof.
  unfold return_book_by_patron.
  destruct (negb (truthy p) || negb (isdigit p) || negb (len p =? 6))%bool;
    [intros H; apply ret_inv in H; destruct H as [_ ->]; auto|].
  unfold get_book_by_id. rewrite bind_query.
  destruct (find _ (books w)) as [b|];
    [|intros H; apply ret_inv in H; destruct H as [_ ->]; auto].
  unfold get_patron_borrowed_books. rewrite bind_query.
  match goal with |- context [for_each ?l ?f ?s] =>
    destruct (for_each l f s) as [found|miss]
  end; [|intros H; apply ret_inv in H; destruct H as [_ ->]; auto].
  unfold datetime_now. rewrite bind_query.
  unfold update_borrow_record_return_date, update_book_availability, bind.
  match goal with |- context [attempt ?f w] =>
    destruct (attempt f w) as [r1 w1] eqn:E1;
    destruct (attempt_inv _ _ _ _ E1) as [[-> ->]|[-> ->]]
  end; simpl;
    [intros H; apply ret_inv in H; destruct H as [_ ->]; auto|].
  match goal with |- context [attempt ?f ?x] =>
    destruct (attempt f x) as [r2 w2] eqn:E2;
    destruct (attempt_inv _ _ _ _ E2) as [[-> ->]|[-> ->]]
  end; simpl; intros H; apply ret_inv in H; destruct H as [_ ->]; simpl;
    auto.
Qed.

(** ** Invariants of runs of requests *)

Lemma serve_all_preserves (P : World -> Prop) :
  (forall rq w, P w -> P (snd (serve rq w))) ->
  forall rqs w, P w -> P (snd (serve_all rqs w)).
Proof.
  intros Hstep rqs. induction rqs as [|rq rqs IH]; intros w Hw; simpl.
  - exact Hw.
  - specialize (Hstep rq w Hw).
    destruct (serve rq w) as [r w1]. simpl in Hstep.
    specialize (IH w1 Hstep).
    destruct (serve_all rqs w1) as [rs w2]. exact IH.
Qed.

(** What a single request does to the catalog and to the records. *)
Lemma serve_effect rq w :
  let w' := snd (serve rq w) in
  clock w' = clock w /\
  (books w' = books w \/
   (exists bid change,
      books w' = map (adjust bid change) (books w) /\
      (change = 1 \/
       change = -1 /\
       exists b,
         find (fun b => Book.id b =? bid) (books w) = Some b /\
         0 < Book.available_copies b)) \/
   (exists title author isbn n,
      books w' =
        (books w ++ [Book.mk (fresh_id (books w)) title author isbn n n])%list
      /\ 0 < n /\
      find (fun b => String.eqb (Book.isbn b) isbn) (books w) = None)) /\
  (borrow_records w' = borrow_records w \/
   (exists p bid now,
      borrow_records w' = map (close p bid now) (borrow_records w)) \/
   (exists p bid now due,
      active_loans p w <= 5 /\
      borrow_records w' =
        (borrow_records w ++ [BorrowRecord.mk p bid now due None])%list)).
Proof.
  destruct rq as [title author isbn n|p bid|p bid]; simpl.
  - destruct (add_book_to_catalog title author isbn n w) as [r w'] eqn:E.
    apply add_book_effect in E. simpl.
    destruct E as (Hr & Hc & [Hb|(Hb & Hn & Hf)]).
    + auto.
    + split; [exact Hc|]. split; [|auto].
      right. right. eexists _, _, _, _. eauto.
  - destruct (borrow_book_by_patron p bid w) as [r w'] eqn:E.
    apply borrow_effect in E. simpl.
    destruct E as (Hc & [(_ & Hb & Hr)|(_ & Hn & Hfound & Hr & Hb)]).
    + auto.
    + split; [exact Hc|]. split.
      * destruct Hb as [Hb|Hb]; [auto|].
        right. left. exists bid, (-1). split; [exact Hb|]. right. auto.
      * right. right. eexists _, _, _, _. eauto.
  - destruct (return_book_by_patron p bid w) as [r w'] eqn:E.
    apply return_effect in E. simpl.
    destruct E as (Hc & Hr & Hb).
    split; [exact Hc|]. split.
    + destruct Hb as [Hb|Hb]; [auto|].
      right. left. exists bid, 1. auto.
    + destruct Hr as [Hr|Hr]; [auto|]. right. left. eauto.
Qed.

Lemma map_id_adjust bid change bs :
  map Book.id (map (adjust bid change) bs) = map Book.id bs.
Proof.
  rewrite map_map. apply map_ext. intros b. apply adjust_fields.
Qed.

Lemma map_isbn_adjust bid change bs :
  map Book.isbn (map (adjust bid change) bs) = map Book.isbn bs.
Proof.
  rewrite map_map. apply map_ext. intros b. apply adjust_fields.
Qed.

Lemma map_card_adjust bid change bs :
  map card (map (adjust bid change) bs) = map card bs.
Proof.
  rewrite map_map. apply map_ext. intros b. unfold card.
  destruct (adjust_fields bid change b) as (-> & -> & -> & -> & -> & _).
  reflexivity.
Qed.

Lemma NoDup_snoc {X} (l : list X) (x : X) :
  NoDup l -> ~ In x l -> NoDup (l ++ [x]).
Proof.
  induction l as [|y l IH]; simpl; intros Hnd Hx.
  - constructor; [tauto|constructor].
  - inversion Hnd; subst. constructor.
    + rewrite in_app_iff. simpl. intuition congruence.
    + apply IH; tauto.
Qed.

Lemma isbn_absent (bs : list Book.t) (isbn : string) :
  find (fun b => String.eqb (Book.isbn b) isbn) bs = None ->
  ~ In isbn (map Book.isbn bs).
Proof.
  intros Hf Hin. apply in_map_iff in Hin. destruct Hin as [b [Hb Hin]].
  pose proof (find_none _ _ Hf b Hin) as Hn. simpl in Hn.
  rewrite Hb, String.eqb_refl in Hn. discriminate.
Qed.

Lemma fresh_id_absent (bs : list Book.t) :
  ~ In (fresh_id bs) (map Book.id bs).
Proof.
  intros Hin. apply in_map_iff in Hin. destruct Hin as [b [Hb Hin]].
  apply id_below_fresh in Hin. lia.
Qed.

Lemma unique_keys_step rq w :
  unique_keys w -> unique_keys (snd (serve rq w)).
Proof.
  intros [Hid Hisbn].
  destruct (serve_effect rq w) as (_ & Hb & _).
  unfold unique_keys.
  destruct Hb as [->|[(bid & change & -> & _)
                     |(title & author & isbn & n & -> & _ & Hf)]].
  - auto.
  - rewrite map_id_adjust, map_isbn_adjust. auto.
  - rewrite !map_app. simpl. split; apply NoDup_snoc; auto.
    + apply fresh_id_absent.
    + apply isbn_absent. exact Hf.
Qed.

(** X6: whatever requests are served, in whatever order and whatever
    writes the store refuses, a catalog whose ids and whose isbn values
    name one book each stays so. *)
Theorem catalog_keys_stay_unique (rqs : list Request) (w : World) :
  unique_keys w -> unique_keys (snd (serve_all rqs w)).
Proof. apply serve_all_preserves. exact unique_keys_step. Qed.

Lemma catalog_keys_stay_unique_witness :
  unique_keys small_library /\
  unique_keys
    (snd (serve_all
            [AddBook "Copy" "Author" "9780451524935" 1;
             AddBook "Animal Farm" "George Orwell" "9780451526342" 2;
             Borrow "123456" 2; ReturnBook "123456" 2]
            small_library)).
Proof.
  assert (H : unique_keys small_library).
  { split; repeat constructor; simpl; intuition discriminate. }
  split; [exact H|].
  exact (catalog_keys_stay_unique _ small_library H).
Defined.

Lemma find_unique (bs : list Book.t) (bid : Z) (b x : Book.t) :
  NoDup (map Book.id bs) ->
  find (fun b => Book.id b =? bid) bs = Some b ->
  In x bs -> Book.id x = bid -> x = b.
Proof.
  induction bs as [|y bs IH]; simpl; intros Hnd Hf Hin Hx; [tauto|].
  inversion Hnd as [|? ? Hnotin Hnd']; subst.
  destruct (Book.id y =? Book.id x) eqn:E.
  - inversion Hf; subst. destruct Hin as [->|Hin]; [reflexivity|].
    apply Z.eqb_eq in E. exfalso. apply Hnotin. rewrite E.
    apply in_map. exact Hin.
  - destruct Hin as [->|Hin]; [rewrite Z.eqb_refl in E; discriminate|].
    apply IH; auto.
Qed.

Lemma stock_step rq w :
  unique_keys w -> stock_not_negative w ->
  stock_not_negative (snd (serve rq w)).
Proof.
  intros [Hid _] Hs.
  destruct (serve_effect rq w) as (_ & Hb & _).
  unfold stock_not_negative in *.
  destruct Hb as [->|[(bid & change & -> & Hchange)
                     |(title & author & isbn & n & -> & Hn & _)]].
  - exact Hs.
  - apply Forall_forall. intros x Hin.
    apply in_map_iff in Hin. destruct Hin as [y [<- Hin]].
    pose proof (proj1 (Forall_forall _ _) Hs y Hin) as Hy. simpl in Hy.
    destruct (adjust_fields bid change y) as (_ & _ & _ & _ & _ & -> & _).
    destruct (Book.id y =? bid) eqn:E; [|exact Hy].
    destruct Hchange as [->|[-> (b & Hf & Hb)]]; [lia|].
    apply Z.eqb_eq in E.
    rewrite (find_unique (books w) bid b y Hid Hf Hin E). lia.
  - apply Forall_app. split; [exact Hs|].
    constructor; [simpl; lia|constructor].
Qed.

(** X7: in a catalog whose ids name one book each, no run of requests
    brings the available copies of a book below zero: a borrow lowers them
    only after having seen them positive. *)
Theorem stock_stays_not_negative (rqs : list Request) (w : World) :
  unique_keys w -> stock_not_negative w ->
  stock_not_negative (snd (serve_all rqs w)).
Proof.
  intros Hu Hs.
  apply (serve_all_preserves
           (fun w => unique_keys w /\ stock_not_negative w)); [|auto].
  clear. intros rq w [Hu Hs]. split.
  - apply unique_keys_step. exact Hu.
  - apply stock_step; assumption.
Qed.

Lemma stock_stays_not_negative_witness :
  unique_keys small_library /\ stock_not_negative small_library /\
  stock_not_negative
    (snd (serve_all
            [Borrow "123456" 2; Borrow "654321" 2; ReturnBook "123456" 2;
             Borrow "654321" 2; Borrow "123456" 2]
            small_library)).
Proof.
  assert (Hu : unique_keys small_library).
  { split; repeat constructor; simpl; intuition discriminate. }
  assert (Hs : stock_not_negative small_library).
  { repeat constructor; simpl; discriminate. }
  split; [exact Hu|]. split; [exact Hs|].
  exact (stock_stays_not_negative _ small_library Hu Hs).
Defined.

(** X8: no run of requests removes a book from the catalog, reorders it,
    or changes the id, title, author, isbn or total number of copies of a
    book: the catalog after the run is the former one, up to the available
    copies, followed by the books added. *)
Theorem catalog_only_grows (rqs : list Request) (w : World) :
  exists added,
    map card (books (snd (serve_all rqs w))) =
    (map card (books w) ++ added)%list.
Proof.
  revert w. induction rqs as [|rq rqs IH]; intros w; simpl.
  - exists []. rewrite app_nil_r. reflexivity.
  - destruct (serve_effect rq w) as (_ & Hb & _).
    destruct (serve rq w) as [r w1]. simpl in Hb.
    destruct (IH w1) as [added Hadded].
    destruct (serve_all rqs w1) as [rs w2]. simpl in *.
    rewrite Hadded.
    destruct Hb as [->|[(bid & change & -> & _)
                       |(title & author & isbn & n & -> & _)]].
    + exists added. reflexivity.
    + exists added. rewrite map_card_adjust. reflexivity.
    + rewrite map_app, <- app_assoc. eexists. reflexivity.
Qed.

Lemma is_active_close p q bid now (r : BorrowRecord.t) :
  is_active p (close q bid now r) = true -> is_active p r = true.
Proof.
  unfold close.
  destruct (is_active q r && (BorrowRecord.book_id r =? bid))%bool;
    [|auto].
  unfold is_active. simpl. rewrite andb_false_r. discriminate.
Qed.

Lemma filter_map_shrinks {X} (f : X -> bool) (g : X -> X) (l : list X) :
  (forall x, f (g x) = true -> f x = true) ->
  (List.length (filter f (map g l)) <= List.length (filter f l))%nat.
Proof.
  intros H. induction l as [|x l IH]; simpl; [lia|].
  destruct (f (g x)) eqn:E.
  - rewrite (H x E). simpl. lia.
  - destruct (f x); simpl; lia.
Qed.

Lemma loans_step rq w :
  (forall p, active_loans p w <= 6) ->
  forall p, active_loans p (snd (serve rq w)) <= 6.
Proof.
  intros Hw p.
  destruct (serve_effect rq w) as (_ & _ & Hr).
  unfold active_loans in *.
  destruct Hr as [->|[(q & bid & now & ->)
                     |(q & bid & now & due & Hq & ->)]].
  - apply Hw.
  - specialize (Hw p).
    pose proof (filter_map_shrinks (is_active p) (close q bid now)
                  (borrow_records w) (is_active_close p q bid now)).
    lia.
  - rewrite filter_app, length_app. simpl.
    unfold is_active at 2. simpl.
    destruct (String.eqb q p) eqn:E; simpl.
    + apply String.eqb_eq in E. subst q. lia.
    + specialize (Hw p). lia.
Qed.

(** X9: no run of requests gives a patron more than six active loans: a
    borrow is granted only to a patron who holds at most five, and nothing
    else opens a loan. *)
Theorem active_loans_bounded (rqs : list Request) (w : World) :
  (forall p, active_loans p w <= 6) ->
  forall p, active_loans p (snd (serve_all rqs w)) <= 6.
Proof.
  apply (serve_all_preserves (fun w => forall p, active_loans p w <= 6)).
  exact loans_step.
Qed.

Lemma active_loans_bounded_witness :
  (forall p, active_loans p small_library <= 6) /\
  active_loans "777777"
    (snd (serve_all (repeat (Borrow "777777" 3) 9) small_library)) <= 6.
Proof.
  assert (H : forall p, active_loans p small_library <= 6).
  { intros p. unfold active_loans. simpl. lia. }
  split; [exact H|].
  exact (active_loans_bounded _ small_library H "777777").
Defined.

(** ** More on the circulation manager *)

Lemma borrow_checked w p bid b :
  valid_patron_id p = true ->
  get_book_by_id bid w = (Returned (Some b), w) ->
  0 < Book.available_copies b ->
  active_loans p w <= 5 ->
  borrow_book_by_patron p bid w =
  (borrow_success <- insert_borrow_record p bid (clock w)
                       (add_days (clock w) 14) ;;
   if negb borrow_success then
     ret (false, "Database error occurred while creating borrow record.")
   else
     availability_success <- update_book_availability bid (-1) ;;
     if negb availability_success then
       ret (false,
            "Database error occurred while updating book availability.")
     else
       ret (true,
            "Successfully borrowed " ++ dquote ++ Book.title b ++ dquote ++
            ". Due date: " ++ strftime_ymd (add_days (clock w) 14) ++ "."))
    w.
Proof.
  intros Hp Hb Ha Hc. unfold borrow_book_by_patron.
  rewrite (valid_patron_id_passes p Hp).
  rewrite (bind_returned _ _ _ _ _ Hb).
  assert (Ha' : (Book.available_copies b <=? 0) = false)
    by (apply Z.leb_gt; exact Ha).
  rewrite Ha'.
  unfold get_patron_borrow_count. rewrite bind_query.
  fold (active_loans p w). rewrite (gtb_false_of_le _ _ Hc).
  unfold datetime_now. rewrite bind_query. reflexivity.
Qed.

Lemma active_loans_after_insert p bid now due w bs fs :
  active_loans p
    (mkWorld bs
       (borrow_records w ++ [BorrowRecord.mk p bid now due None])
       (clock w) fs)
  = active_loans p w + 1.
Proof.
  unfold active_loans. simpl. rewrite filter_app, length_app. simpl.
  unfold is_active at 2. simpl. rewrite String.eqb_refl. simpl. lia.
Qed.

(** X10: a well-formed patron id holding at most five active loans, a book
    of the catalog with a copy available, a store that carries out the
    two writes, and a clock from the year 1000 on whose fourteenth day
    ahead is still a date a [datetime] holds: the borrow succeeds, its
    message names the title and the due date, one active record is added
    for that patron and book, dated now and due fourteen days later, the
    available copies of the book go down by one, and the patron holds one
    more active loan. *)
Theorem borrow_accepted (w : World) (p : string) (bid : Z) (b : Book.t) :
  valid_patron_id p = true ->
  get_book_by_id bid w = (Returned (Some b), w) ->
  0 < Book.available_copies b ->
  active_loans p w <= 5 ->
  hd false (refusals w) = false ->
  hd false (tl (refusals w)) = false ->
  year_1000 <= clock w ->
  add_days (clock w) 14 <= datetime_max ->
  let due := add_days (clock w) 14 in
  let w' :=
    mkWorld (map (adjust bid (-1)) (books w))
      (borrow_records w ++ [BorrowRecord.mk p bid (clock w) due None])
      (clock w) (tl (tl (refusals w))) in
  borrow_book_by_patron p bid w =
    (Returned
       (true,
        "Successfully borrowed " ++ dquote ++ Book.title b ++ dquote ++
        ". Due date: " ++ strftime_ymd due ++ "."), w') /\
  date due - date (clock w) = 14 /\
  year_1000 <= due <= datetime_max /\
  active_loans p w' = active_loans p w + 1.
Proof.
  intros Hp Hb Ha Hc H1 H2 Hlo Hhi due w'. split; [|split; [|split]].
  - rewrite (borrow_checked w p bid b Hp Hb Ha Hc).
    unfold insert_borrow_record, update_book_availability.
    erewrite bind_returned by (apply attempt_accepted; exact H1). simpl.
    erewrite bind_returned by (apply attempt_accepted; exact H2). simpl.
    reflexivity.
  - subst due. unfold date, add_days. rewrite Z.div_add by lia. lia.
  - subst due. split; [|exact Hhi]. unfold add_days. lia.
  - subst w'. apply active_loans_after_insert.
Qed.

Lemma borrow_accepted_witness :
  valid_patron_id "123456" = true /\
  get_book_by_id 1 small_library = (Returned (Some gatsby), small_library) /\
  year_1000 <= clock small_library /\
  add_days (clock small_library) 14 <= datetime_max /\
  fst (borrow_book_by_patron "123456" 1 small_library) =
    Returned
      (true,
       "Successfully borrowed " ++ dquote ++ "The Great Gatsby" ++ dquote ++
       ". Due date: 2026-11-17.") /\
  active_loans "123456" (snd (borrow_book_by_patron "123456" 1 small_library))
    = 1.
Proof.
  split; [reflexivity|]. split; [reflexivity|].
  assert (Hc : active_loans "123456" small_library <= 5)
    by (vm_compute; discriminate).
  assert (Hlo : year_1000 <= clock small_library)
    by (vm_compute; discriminate).
  assert (Hhi : add_days (clock small_library) 14 <= datetime_max)
    by (vm_compute; discriminate).
  split; [exact Hlo|]. split; [exact Hhi|].
  destruct (borrow_accepted small_library "123456" 1 gatsby
              eq_refl eq_refl eq_refl Hc eq_refl eq_refl Hlo Hhi)
    as (H1 & _ & _ & H3).
  rewrite H1. split; [reflexivity|exact H3].
Defined.

(** X11: a borrow is granted only on these terms: when
    [borrow_book_by_patron] reports success the patron id is well formed,
    the book is in the catalog and had a copy available, the patron held at
    most five active loans, the records are the former ones followed by
    the new active record, due fourteen days after the current time, and
    the store kept its clock. *)
Theorem borrow_granted_only_when (w w' : World) (p : string) (bid : Z)
    (msg : string) :
  borrow_book_by_patron p bid w = (Returned (true, msg), w') ->
  valid_patron_id p = true /\
  active_loans p w <= 5 /\
  (exists b,
     get_book_by_id bid w = (Returned (Some b), w) /\
     0 < Book.available_copies b) /\
  borrow_records w' =
    (borrow_records w ++
     [BorrowRecord.mk p bid (clock w) (add_days (clock w) 14) None])%list /\
  clock w' = clock w.
Proof.
  intros H. destruct (borrow_effect _ _ _ _ _ H)
    as (Hc & [([m Hm] & _)|(Hp & Hn & (b & Hf & Ha) & Hr & _)]).
  - discriminate.
  - repeat split; auto. exists b. split; [|exact Ha].
    unfold get_book_by_id, query. rewrite Hf. reflexivity.
Qed.

Lemma borrow_granted_only_when_witness :
  fst (serve_all [Borrow "123456" 1] small_library) = [Some true] /\
  valid_patron_id "123456" = true /\
  active_loans "123456" small_library <= 5 /\
  borrow_records (snd (borrow_book_by_patron "123456" 1 small_library)) =
    [BorrowRecord.mk "123456" 1 noon (add_days noon 14) None].
Proof.
  split; [reflexivity|].
  destruct (borrow_granted_only_when small_library
              (snd (borrow_book_by_patron "123456" 1 small_library))
              "123456" 1
              (snd (match fst (borrow_book_by_patron "123456" 1 small_library)
                    with Returned r => r | Raised _ => (false, EmptyString)
                    end))
              eq_refl) as (Hp & Hn & _ & Hr & _).
  split; [exact Hp|]. split; [exact Hn|exact Hr].
Defined.

(** X12: for a well-formed patron id and a book of the catalog,
    [borrow_book_by_patron] looks at the available copies before the
    patron's loans: no copy available gives the message that the book is
    not available, a copy available and more than five active loans the
    message of the borrowing limit; the store is untouched in both cases. *)
Theorem borrow_refusals (w : World) (p : string) (bid : Z) (b : Book.t) :
  valid_patron_id p = true ->
  get_book_by_id bid w = (Returned (Some b), w) ->
  (Book.available_copies b <= 0 ->
   borrow_book_by_patron p bid w =
     (Returned (false, "This book is currently not available."), w)) /\
  (0 < Book.available_copies b -> 5 < active_loans p w ->
   borrow_book_by_patron p bid w =
     (Returned
        (false, "You have reached the maximum borrowing limit of 5 books."),
      w)).
Proof.
  intros Hp Hb. split.
  - intros Ha. unfold borrow_book_by_patron.
    rewrite (valid_patron_id_passes p Hp).
    rewrite (bind_returned _ _ _ _ _ Hb).
    apply Z.leb_le in Ha. rewrite Ha. reflexivity.
  - intros Ha Hc. unfold borrow_book_by_patron.
    rewrite (valid_patron_id_passes p Hp).
    rewrite (bind_returned _ _ _ _ _ Hb).
    assert (Ha' : (Book.available_copies b <=? 0) = false)
      by (apply Z.leb_gt; exact Ha).
    rewrite Ha'.
    unfold get_patron_borrow_count. rewrite bind_query.
    fold (active_loans p w). rewrite (gtb_true_of_lt _ _ Hc). reflexivity.
Qed.

Lemma borrow_refusals_witness :
  borrow_book_by_patron "654321" 2 two_loans =
    (Returned (false, "This book is currently not available."), two_loans) /\
  active_loans "777777" six_loans = 6 /\
  borrow_book_by_patron "777777" 3 six_loans =
    (Returned
       (false, "You have reached the maximum borrowing limit of 5 books."),
     six_loans).
Proof.
  split; [|split; [reflexivity|]].
  - apply (proj1 (borrow_refusals two_loans "654321" 2 nineteen84_lent
                    eq_refl eq_refl)).
    vm_compute. discriminate.
  - apply (proj2 (borrow_refusals six_loans "777777" 3
                    (Book.mk 3 "To Kill a Mockingbird" "Harper Lee"
                       "9780061120084" 10 4)
                    eq_refl eq_refl)); reflexivity.
Defined.



(** X14: when the scan of [return_book_by_patron] lets the request through
    (the first active record of the patron is for the book) and the store
    refuses a write, the return fails and nothing is undone: a refused
    first write leaves catalog and records as they were; a refused second
    write leaves the patron's records for the book closed and the
    available copies as they were. *)
Theorem return_store_failure (w : World) (p : string) (bid : Z) (b : Book.t)
    (r : Borrowed.t) (rest : list Borrowed.t) (fs : list bool) :
  valid_patron_id p = true ->
  get_book_by_id bid w = (Returned (Some b), w) ->
  get_patron_borrowed_books p w = (Returned (r :: rest), w) ->
  Borrowed.book_id r = bid ->
  (refusals w = true :: fs ->
   return_book_by_patron p bid w =
     (Returned (false, "Error while updating return record."),
      mkWorld (books w) (borrow_records w) (clock w) fs)) /\
  (refusals w = false :: true :: fs ->
   return_book_by_patron p bid w =
     (Returned (false, "Error while updating book availability."),
      mkWorld (books w)
        (map (close p bid (clock w)) (borrow_records w)) (clock w) fs)).
Proof.
  intros Hp Hb Hrows Hr.
  rewrite (return_after_scan w p bid b (r :: rest) Hp Hb Hrows)
    by (right; eauto).
  unfold update_borrow_record_return_date, update_book_availability.
  split; intros Hfs.
  - erewrite bind_returned by (eapply attempt_refused; exact Hfs).
    unfold pop_refusal. rewrite Hfs. reflexivity.
  - erewrite bind_returned
      by (apply attempt_accepted; rewrite Hfs; reflexivity).
    simpl.
    erewrite bind_returned
      by (eapply attempt_refused; simpl; rewrite Hfs; reflexivity).
    unfold pop_refusal. simpl. rewrite Hfs. reflexivity.
Qed.

Lemma return_store_failure_witness :
  let w := mkWorld (books two_loans) (borrow_records two_loans) noon
             [false; true] in
  return_book_by_patron "123456" 1 w =
    (Returned (false, "Error while updating book availability."),
     mkWorld (books two_loans)
       (map (close "123456" 1 noon) (borrow_records two_loans)) noon []) /\
  map BorrowRecord.return_date
    (map (close "123456" 1 noon) (borrow_records two_loans)) =
    [Some noon; None] /\
  map Book.available_copies (books two_loans) = [2; 0; 10].
Proof.
  split; [|split; reflexivity].
  exact (proj2 (return_store_failure
                  (mkWorld (books two_loans) (borrow_records two_loans) noon
                     [false; true])
                  "123456" 1
                  (Book.mk 1 "The Great Gatsby" "F. Scott Fitzgerald"
                     "9780743273565" 3 2)
                  gatsby_loan [nineteen84_loan] []
                  eq_refl eq_refl eq_refl eq_refl) eq_refl).
Defined.

Lemma borrowed_books_rows p w :
  get_patron_borrowed_books p w =
  (Returned
     (borrowed_rows (filter (is_active p) (borrow_records w)) (books w)), w).
Proof. reflexivity. Qed.










(** ** More on the fee calculator *)

Lemma quote_unmatched w p bid r rest :
  get_patron_borrowed_books p w = (Returned (r :: rest), w) ->
  Borrowed.book_id r <> bid ->
  calculate_late_fee_for_book p bid w =
    (Returned (FeeQuote.mk 0 0 "Not being borrowed"), w).
Proof.
  intros Hrows Hr. unfold calculate_late_fee_for_book.
  rewrite (bind_returned _ _ _ _ _ Hrows).
  rewrite first_record_scan. apply Z.eqb_neq in Hr. rewrite Hr.
  reflexivity.
Qed.

(** X16: with a patron who has active records, the quote is read off the
    first of them alone: the fee schedule applied to its due date when it
    is for the requested book, and otherwise a fee of zero with the status
    Not being borrowed, whatever the later records are, also when one of
    them is for the requested book.  The store is untouched. *)
Theorem quote_decided_by_first_record (w : World) (p : string) (bid : Z)
    (r : Borrowed.t) (rest : list Borrowed.t) :
  get_patron_borrowed_books p w = (Returned (r :: rest), w) ->
  let d := Z.max (date (clock w) - date (Borrowed.due_date r)) 0 in
  calculate_late_fee_for_book p bid w =
    (Returned
       (if Borrowed.book_id r =? bid
        then FeeQuote.mk (Qred (fee_cents d # 100)) d
               (if d <=? 0 then "On time" else "Overdue")
        else FeeQuote.mk 0 0 "Not being borrowed"), w).
Proof.
  intros Hrows d. destruct (Borrowed.book_id r =? bid) eqn:E.
  - apply Z.eqb_eq in E. exact (quote_found w p bid r rest Hrows E).
  - apply Z.eqb_neq in E. exact (quote_unmatched w p bid r rest Hrows E).
Qed.

Lemma quote_decided_by_first_record_witness :
  get_patron_borrowed_books "123456" two_loans_overdue =
    (Returned [gatsby_loan; nineteen84_loan], two_loans_overdue) /\
  calculate_late_fee_for_book "123456" 2 two_loans_overdue =
    (Returned (FeeQuote.mk 0 0 "Not being borrowed"), two_loans_overdue) /\
  calculate_late_fee_for_book "123456" 1 two_loans_overdue =
    (Returned (FeeQuote.mk (13 # 2) 10 "Overdue"), two_loans_overdue).
Proof.
  split; [reflexivity|]. split.
  - exact (quote_decided_by_first_record two_loans_overdue "123456" 2
             gatsby_loan [nineteen84_loan] eq_refl).
  - exact (quote_decided_by_first_record two_loans_overdue "123456" 1
             gatsby_loan [nineteen84_loan] eq_refl).
Defined.

(** Every quote the calculator returns, and the store it leaves. *)
Lemma quote_returned w p bid q w' :
  calculate_late_fee_for_book p bid w = (Returned q, w') ->
  w' = w /\
  0 <= FeeQuote.days_overdue q /\
  FeeQuote.fee_amount q =
    Qred (fee_cents (FeeQuote.days_overdue q) # 100) /\
  (FeeQuote.status q = "Not being borrowed" /\ FeeQuote.days_overdue q = 0 \/
   FeeQuote.status q = "On time" /\ FeeQuote.days_overdue q = 0 \/
   FeeQuote.status q = "Overdue" /\ 0 < FeeQuote.days_overdue q).
Proof.
  intros H.
  pose proof (borrowed_books_rows p w) as Hrows.
  destruct (borrowed_rows _ _) as [|r rest] in Hrows.
  - rewrite (quote_raises_on_empty_list w p bid Hrows) in H. discriminate.
  - destruct (Z.eq_dec (Borrowed.book_id r) bid) as [Hr|Hr].
    + rewrite (quote_found w p bid r rest Hrows Hr) in H.
      injection H as Hq Hw. subst q w'.
      cbn [FeeQuote.days_overdue FeeQuote.fee_amount FeeQuote.status].
      set (d := Z.max (date (clock w) - date (Borrowed.due_date r)) 0).
      split; [reflexivity|]. split; [subst d; lia|].
      split; [reflexivity|].
      destruct (d <=? 0) eqn:E.
      * apply Z.leb_le in E. right. left. split; [reflexivity|subst d; lia].
      * apply Z.leb_gt in E. right. right. auto.
    + rewrite (quote_unmatched w p bid r rest Hrows Hr) in H.
      injection H as Hq Hw. subst q w'.
      cbn [FeeQuote.days_overdue FeeQuote.fee_amount FeeQuote.status].
      repeat split; auto. lia.
Qed.

Lemma fee_cents_facts (d : Z) :
  0 <= d ->
  0 <= fee_cents d <= 1500 /\ (fee_cents d = 0 <-> d = 0).
Proof. unfold fee_cents. lia. Qed.

Lemma fee_cents_monotone (d1 d2 : Z) :
  d1 <= d2 -> fee_cents d1 <= fee_cents d2.
Proof. unfold fee_cents. lia. Qed.

(** X17: whenever [calculate_late_fee_for_book] returns a quote, the store
    is untouched, the days overdue are not negative, the fee lies between 0
    and 15.00 and is zero exactly when no day is overdue, the status is
    one of the three the service knows, and it is Overdue exactly when
    some day is overdue. *)
Theorem quote_within_bounds (w w' : World) (p : string) (bid : Z)
    (q : FeeQuote.t) :
  calculate_late_fee_for_book p bid w = (Returned q, w') ->
  w' = w /\
  0 <= FeeQuote.days_overdue q /\
  (0 <= FeeQuote.fee_amount q <= 15)%Q /\
  ((FeeQuote.fee_amount q == 0)%Q <-> FeeQuote.days_overdue q = 0) /\
  (FeeQuote.status q = "On time" \/ FeeQuote.status q = "Overdue" \/
   FeeQuote.status q = "Not being borrowed") /\
  (FeeQuote.status q = "Overdue" <-> 0 < FeeQuote.days_overdue q).
Proof.
  intros H. destruct (quote_returned _ _ _ _ _ H) as (Hw & Hd & Hfee & Hs).
  destruct (fee_cents_facts _ Hd) as [Hrange Hzero].
  split; [exact Hw|]. split; [exact Hd|]. rewrite Hfee.
  split; [|split; [|split]].
  - rewrite Qred_correct. unfold Qle. cbn [Qnum Qden]. lia.
  - rewrite Qred_correct. rewrite <- Hzero. unfold Qeq. cbn [Qnum Qden]. lia.
  - destruct Hs as [[-> _]|[[-> _]|[-> _]]]; auto.
  - destruct Hs as [[-> Hz]|[[-> Hz]|[-> Hz]]]; split; intros Hx;
      try discriminate; try reflexivity; try lia; exact Hz.
Qed.

Lemma quote_within_bounds_witness :
  exists q,
    calculate_late_fee_for_book "123456" 1 two_loans_overdue =
      (Returned q, two_loans_overdue) /\
    (0 <= FeeQuote.fee_amount q <= 15)%Q /\
    FeeQuote.status q = "Overdue".
Proof.
  exists (FeeQuote.mk (13 # 2) 10 "Overdue").
  split; [reflexivity|].
  destruct (quote_within_bounds two_loans_overdue two_loans_overdue
              "123456" 1 (FeeQuote.mk (13 # 2) 10 "Overdue") eq_refl)
    as (_ & _ & Hfee & _ & _ & Hs).
  split; [exact Hfee|]. apply Hs. reflexivity.
Defined.

(** X18: the fee never goes down with the days overdue: of two quotes
    the calculator returns, on any stores, for any patrons and books, the
    one with no more days overdue has no higher fee. *)
Theorem fee_monotone (w1 w1' w2 w2' : World) (p1 p2 : string) (b1 b2 : Z)
    (q1 q2 : FeeQuote.t) :
  calculate_late_fee_for_book p1 b1 w1 = (Returned q1, w1') ->
  calculate_late_fee_for_book p2 b2 w2 = (Returned q2, w2') ->
  FeeQuote.days_overdue q1 <= FeeQuote.days_overdue q2 ->
  (FeeQuote.fee_amount q1 <= FeeQuote.fee_amount q2)%Q.
Proof.
  intros H1 H2 Hd.
  destruct (quote_returned _ _ _ _ _ H1) as (_ & _ & -> & _).
  destruct (quote_returned _ _ _ _ _ H2) as (_ & _ & -> & _).
  rewrite !Qred_correct. unfold Qle. cbn [Qnum Qden].
  pose proof (fee_cents_monotone _ _ Hd). lia.
Qed.

Lemma fee_monotone_witness :
  calculate_late_fee_for_book "123456" 1 (days_later 19 two_loans) =
    (Returned (FeeQuote.mk (5 # 2) 5 "Overdue"), days_later 19 two_loans) /\
  calculate_late_fee_for_book "123456" 1 two_loans_overdue =
    (Returned (FeeQuote.mk (13 # 2) 10 "Overdue"), two_loans_overdue) /\
  ((5 # 2) <= (13 # 2))%Q.
Proof.
  split; [reflexivity|]. split; [reflexivity|].
  apply (fee_monotone (days_later 19 two_loans) (days_later 19 two_loans)
           two_loans_overdue two_loans_overdue "123456" "123456" 1 1
           (FeeQuote.mk (5 # 2) 5 "Overdue")
           (FeeQuote.mk (13 # 2) 10 "Overdue") eq_refl eq_refl).
  vm_compute. discriminate.
Defined.

(** ** The status reporter *)

Lemma quote_by_first w p r rest bid :
  get_patron_borrowed_books p w = (Returned (r :: rest), w) ->
  calculate_late_fee_for_book p bid w =
    (Returned (quote_from_first w r bid), w).
Proof.
  intros Hrows. unfold quote_from_first.
  destruct (Borrowed.book_id r =? bid) eqn:E.
  - apply Z.eqb_eq in E. exact (quote_found w p bid r rest Hrows E).
  - apply Z.eqb_neq in E. exact (quote_unmatched w p bid r rest Hrows E).
Qed.

Lemma report_loop w p first rest (l : list Borrowed.t)
    (details : list Detail.t) (total : Q) :
  get_patron_borrowed_books p w = (Returned (first :: rest), w) ->
  for_each_m l
    (fun book (acc : list Detail.t * Q) =>
       let '(borrowed_details, total_fees) := acc in
       let book_id := Borrowed.book_id book in
       fee_info <- calculate_late_fee_for_book p book_id ;;
       ret ((borrowed_details ++
             [Detail.mk book_id (Borrowed.title book)
                (Borrowed.author book) (Borrowed.borrow_date book)
                (Borrowed.due_date book)
                (FeeQuote.days_overdue fee_info)
                (FeeQuote.fee_amount fee_info)
                (FeeQuote.status fee_info)])%list,
            (total_fees + FeeQuote.fee_amount fee_info)%Q))
    (details, total) w
  = (Returned
       ((details ++ map (report_entry w first) l)%list,
        fold_left (fun t e => (t + Detail.late_fee e)%Q)
          (map (report_entry w first) l) total), w).
Proof.
  intros Hrows. revert details total.
  induction l as [|row l IH]; intros details total.
  - simpl. rewrite app_nil_r. reflexivity.
  - cbn [for_each_m].
    erewrite bind_returned.
    2:{ erewrite bind_returned by (apply (quote_by_first w p first rest);
                                   exact Hrows).
        reflexivity. }
    rewrite IH. cbn [map fold_left]. rewrite <- app_assoc. reflexivity.
Qed.

Lemma status_report_run w p :
  valid_patron_id p = true ->
  get_patron_status_report p w =
  (Returned
     (StatusReport.mk p (Z.of_nat (List.length (active_rows p w)))
        (report_entries w (active_rows p w))
        (map history_entry (history_rows p w))
        (round2 (sum_fees (report_entries w (active_rows p w))))), w).
Proof.
  intros Hp. unfold get_patron_status_report.
  rewrite (valid_patron_id_passes p Hp).
  pose proof (borrowed_books_rows p w) as Hrows.
  unfold active_rows. rewrite Hrows. cbn [fst].
  rewrite (bind_returned _ _ _ _ _ Hrows).
  destruct (borrowed_rows _ _) as [|first rest] eqn:E.
  - reflexivity.
  - erewrite bind_returned by (apply (report_loop w p first rest); exact Hrows).
    reflexivity.
Qed.

Lemma patron_check (p : string) :
  (negb (truthy p) || negb (isdigit p) || negb (len p =? 6))%bool =
  negb (valid_patron_id p).
Proof.
  unfold valid_patron_id.
  destruct (truthy p), (isdigit p), (len p =? 6); reflexivity.
Qed.

Lemma report_entries_length w rows :
  List.length (report_entries w rows) = List.length rows.
Proof. destruct rows; [reflexivity|]. apply length_map. Qed.

(** X19: [get_patron_status_report] answers for every patron id and every
    store, although the fee calculator it calls can raise: it returns a
    report for that patron id, leaves the store untouched, counts as many
    loans as it lists entries, and totals the fees of the entries, rounded
    to two decimals. *)
Theorem status_report_always_answers (w : World) (p : string) :
  exists report,
    get_patron_status_report p w = (Returned report, w) /\
    StatusReport.patron_id report = p /\
    StatusReport.borrow_count report =
      Z.of_nat (List.length (StatusReport.borrowed_books report)) /\
    StatusReport.total_late_fee report =
      round2 (sum_fees (StatusReport.borrowed_books report)).
Proof.
  destruct (valid_patron_id p) eqn:Hp.
  - eexists. split; [apply status_report_run; exact Hp|].
    cbn [StatusReport.patron_id StatusReport.borrow_count
         StatusReport.borrowed_books StatusReport.total_late_fee].
    rewrite report_entries_length. repeat split.
  - exists (StatusReport.mk p 0 [] [] 0). split; [|repeat split].
    unfold get_patron_status_report. rewrite patron_check, Hp. reflexivity.
Qed.

(** X20: in the report of a patron with active rows, the entries follow
    the rows, one each and in their order, with the book, title, author
    and dates of the row; an entry for the book of the first row carries
    the days overdue and the fee of the first row, also when it stands for
    another loan of that book, and an entry for any other book carries no
    day, no fee and the status Not being borrowed. *)
Theorem status_report_entries (w : World) (p : string) (first : Borrowed.t)
    (rest : list Borrowed.t) :
  valid_patron_id p = true ->
  get_patron_borrowed_books p w = (Returned (first :: rest), w) ->
  let d := Z.max (date (clock w) - date (Borrowed.due_date first)) 0 in
  exists report,
    get_patron_status_report p w = (Returned report, w) /\
    StatusReport.borrow_count report = Z.of_nat (S (List.length rest)) /\
    Forall2
      (fun row e =>
         Detail.book_id e = Borrowed.book_id row /\
         Detail.title e = Borrowed.title row /\
         Detail.author e = Borrowed.author row /\
         Detail.borrow_date e = Borrowed.borrow_date row /\
         Detail.due_date e = Borrowed.due_date row /\
         (Borrowed.book_id row = Borrowed.book_id first ->
          Detail.days_overdue e = d /\
          Detail.late_fee e = Qred (fee_cents d # 100) /\
          Detail.status e = (if d <=? 0 then "On time" else "Overdue")) /\
         (Borrowed.book_id row <> Borrowed.book_id first ->
          Detail.days_overdue e = 0 /\
          Detail.late_fee e = 0%Q /\
          Detail.status e = "Not being borrowed"))
      (first :: rest) (StatusReport.borrowed_books report).
Proof.
  intros Hp Hrows d.
  assert (Hact : active_rows p w = first :: rest)
    by (unfold active_rows; rewrite Hrows; reflexivity).
  eexists. split; [apply status_report_run; exact Hp|].
  rewrite Hact.
  cbn [StatusReport.borrow_count StatusReport.borrowed_books report_entries].
  split; [reflexivity|].
  generalize (first :: rest) as rows. intros rows.
  induction rows as [|row rows IH]; cbn [map]; constructor; [|exact IH].
  unfold report_entry, quote_from_first. fold d.
  cbn [Detail.book_id Detail.title Detail.author Detail.borrow_date
       Detail.due_date].
  repeat (split; [reflexivity|]).
  destruct (Borrowed.book_id first =? Borrowed.book_id row) eqn:E;
    cbn [Detail.days_overdue Detail.late_fee Detail.status
         FeeQuote.days_overdue FeeQuote.fee_amount FeeQuote.status].
  - split; [auto|]. intros Hne. apply Z.eqb_eq in E. congruence.
  - split; [|auto]. intros He. apply Z.eqb_neq in E. congruence.
Qed.

Lemma status_report_entries_witness :
  get_patron_borrowed_books "123456" two_loans_overdue =
    (Returned [gatsby_loan; nineteen84_loan], two_loans_overdue) /\
  exists report,
    get_patron_status_report "123456" two_loans_overdue =
      (Returned report, two_loans_overdue) /\
    StatusReport.borrow_count report = 2 /\
    List.length (StatusReport.borrowed_books report) = 2%nat.
Proof.
  split; [reflexivity|].
  destruct (status_report_entries two_loans_overdue "123456" gatsby_loan
              [nineteen84_loan] eq_refl eq_refl) as (report & Hr & Hc & Hf).
  exists report. split; [exact Hr|]. split; [exact Hc|].
  apply Forall2_length in Hf. symmetry. exact Hf.
Defined.

(** X21: for a well-formed patron id without active row the report counts
    no loan, lists no entry and totals no fee, while its history still
    holds every record of the patron. *)
Theorem status_report_without_loans (w : World) (p : string) :
  valid_patron_id p = true ->
  get_patron_borrowed_books p w = (Returned [], w) ->
  get_patron_status_report p w =
    (Returned
       (StatusReport.mk p 0 [] (map history_entry (history_rows p w)) 0), w).
Proof.
  intros Hp Hrows.
  assert (Hact : active_rows p w = [])
    by (unfold active_rows; rewrite Hrows; reflexivity).
  rewrite (status_report_run w p Hp), Hact. reflexivity.
Qed.

Lemma status_report_without_loans_witness :
  valid_patron_id "123456" = true /\
  get_patron_borrowed_books "123456" returned_loan =
    (Returned [], returned_loan) /\
  get_patron_status_report "123456" returned_loan =
    (Returned
       (StatusReport.mk "123456" 0 []
          [History.mk 2 "1984" "George Orwell" noon (add_days noon 14)
             (inl noon)] 0), returned_loan).
Proof.
  split; [reflexivity|]. split; [reflexivity|].
  exact (status_report_without_loans returned_loan "123456"
           eq_refl eq_refl).
Defined.

Lemma insert_desc_in x y l :
  In y (insert_desc x l) <-> y = x \/ In y l.
Proof.
  induction l as [|z l IH]; simpl.
  - intuition.
  - destruct (BorrowRecord.borrow_date (fst z) <=?
              BorrowRecord.borrow_date (fst x)); simpl.
    + intuition.
    + rewrite IH. intuition.
Qed.

Lemma order_desc_in y l :
  In y (order_by_borrow_date_desc l) <-> In y l.
Proof.
  unfold order_by_borrow_date_desc.
  induction l as [|x l IH]; simpl; [tauto|].
  rewrite insert_desc_in, IH. intuition.
Qed.

Lemma insert_desc_sorted x l :
  StronglySorted
    (fun a b : BorrowRecord.t * Book.t =>
       BorrowRecord.borrow_date (fst b) <= BorrowRecord.borrow_date (fst a))
    l ->
  StronglySorted
    (fun a b : BorrowRecord.t * Book.t =>
       BorrowRecord.borrow_date (fst b) <= BorrowRecord.borrow_date (fst a))
    (insert_desc x l).
Proof.
  induction l as [|z l IH]; intros Hs; simpl.
  - constructor; constructor.
  - inversion Hs as [|? ? Hs' Hall]; subst.
    destruct (BorrowRecord.borrow_date (fst z) <=?
              BorrowRecord.borrow_date (fst x)) eqn:E.
    + apply Z.leb_le in E. constructor; [exact Hs|].
      constructor; [exact E|].
      apply Forall_forall. intros y Hy.
      pose proof (proj1 (Forall_forall _ _) Hall y Hy). simpl in *. lia.
    + apply Z.leb_gt in E. constructor; [apply IH; exact Hs'|].
      apply Forall_forall. intros y Hy. apply insert_desc_in in Hy.
      destruct Hy as [->|Hy]; [lia|].
      exact (proj1 (Forall_forall _ _) Hall y Hy).
Qed.

Lemma order_desc_sorted l :
  StronglySorted
    (fun a b : BorrowRecord.t * Book.t =>
       BorrowRecord.borrow_date (fst b) <= BorrowRecord.borrow_date (fst a))
    (order_by_borrow_date_desc l).
Proof.
  unfold order_by_borrow_date_desc.
  induction l as [|x l IH]; simpl; [constructor|].
  apply insert_desc_sorted. exact IH.
Qed.

Lemma sorted_map {X Y} (R : X -> X -> Prop) (S : Y -> Y -> Prop)
    (f : X -> Y) (l : list X) :
  (forall a b, R a b -> S (f a) (f b)) ->
  StronglySorted R l -> StronglySorted S (map f l).
Proof.
  intros Hf Hs. induction Hs as [|a l Hs IH Hall]; simpl; constructor.
  - exact IH.
  - apply Forall_forall. intros y Hy. apply in_map_iff in Hy.
    destruct Hy as [b [<- Hb]]. apply Hf.
    exact (proj1 (Forall_forall _ _) Hall b Hb).
Qed.

(** X22: the history of the report of a well-formed patron id runs from
    the latest borrow date to the earliest; each of its entries is a
    record of that patron with the title and author of the book of that
    id, carrying the return date of the record or, for a record still
    open, the words Not yet returned; and each record of the patron whose
    book is in the catalog has its entry. *)
Theorem history_latest_first (w : World) (p : string) :
  valid_patron_id p = true ->
  exists report,
    get_patron_status_report p w = (Returned report, w) /\
    StronglySorted
      (fun a b => History.borrow_date b <= History.borrow_date a)
      (StatusReport.borrowing_history report) /\
    (forall h, In h (StatusReport.borrowing_history report) <->
       exists r b,
         In r (borrow_records w) /\ BorrowRecord.patron_id r = p /\
         In b (books w) /\ Book.id b = BorrowRecord.book_id r /\
         h = History.mk (BorrowRecord.book_id r) (Book.title b)
               (Book.author b) (BorrowRecord.borrow_date r)
               (BorrowRecord.due_date r)
               match BorrowRecord.return_date r with
               | Some d => inl d
               | None => inr "Not yet returned"
               end).
Proof.
  intros Hp. eexists. split; [apply status_report_run; exact Hp|].
  cbn [StatusReport.borrowing_history]. split.
  - apply (sorted_map
             (fun a b : BorrowRecord.t * Book.t =>
                BorrowRecord.borrow_date (fst b) <=
                BorrowRecord.borrow_date (fst a))).
    + intros [r1 b1] [r2 b2] H. exact H.
    + apply order_desc_sorted.
  - intros h. rewrite in_map_iff. split.
    + intros [[r b] [<- Hin]]. unfold history_rows in Hin.
      apply (proj1 (order_desc_in _ _)) in Hin. unfold join_books in Hin.
      apply in_flat_map in Hin. destruct Hin as [r' [Hr' Hin]].
      apply in_map_iff in Hin. destruct Hin as [b' [Hpair Hb']].
      inversion Hpair; subst r' b'.
      apply filter_In in Hr'. destruct Hr' as [Hr' Hpat].
      apply filter_In in Hb'. destruct Hb' as [Hb' Hid].
      apply String.eqb_eq in Hpat. apply Z.eqb_eq in Hid.
      exists r, b. repeat split; auto.
    + intros (r & b & Hr & Hpat & Hb & Hid & ->).
      exists (r, b). split; [reflexivity|]. unfold history_rows.
      apply (proj2 (order_desc_in _ _)). unfold join_books.
      apply in_flat_map.
      exists r. split.
      * apply filter_In. split; [exact Hr|]. apply String.eqb_eq. exact Hpat.
      * apply in_map. apply filter_In. split; [exact Hb|].
        apply Z.eqb_eq. exact Hid.
Qed.

Lemma history_latest_first_witness :
  valid_patron_id "123456" = true /\
  exists report,
    get_patron_status_report "123456" two_loans = (Returned report, two_loans)
    /\ List.length (StatusReport.borrowing_history report) = 2%nat
    /\ StronglySorted
         (fun a b => History.borrow_date b <= History.borrow_date a)
         (StatusReport.borrowing_history report).
Proof.
  split; [reflexivity|].
  destruct (history_latest_first two_loans "123456" eq_refl)
    as (report & Hr & Hs & _).
  exists report. split; [exact Hr|]. split; [|exact Hs].
  pose proof (status_report_run two_loans "123456" eq_refl) as Hrun.
  rewrite Hrun in Hr. injection Hr as <-. reflexivity.
Defined.

(** ** More on the search engine *)

Lemma search_as_filter w term st :
  search_books_in_catalog term st w =
  (Returned
     (if truthy term
      then filter (matches (search_type_of st) (lower (strip term))) (books w)
      else []), w).
Proof.
  unfold search_books_in_catalog.
  destruct (truthy term); cbn [negb]; [|reflexivity].
  fold (search_type_of st). cbv zeta.
  unfold get_all_books. rewrite bind_query.
  rewrite (filter_scan (matches (search_type_of st) (lower (strip term)))).
  - reflexivity.
  - intros i results. unfold matches.
    destruct (String.eqb (search_type_of st) "title"
              || String.eqb (search_type_of st) "author")%bool.
    + destruct (contains _ _); reflexivity.
    + destruct (String.eqb (search_type_of st) "isbn"); [|reflexivity].
      destruct (String.eqb _ _); reflexivity.
Qed.

(** X23: a search by title, and a search by author, return in catalog
    order exactly the books whose title, or author, contains the term,
    both taken without regard to case and the term trimmed first; an empty
    term returns nothing; the store is untouched. *)
Theorem search_by_title_or_author (w : World) (term : string) :
  search_books_in_catalog term "title" w =
    (Returned
       (if truthy term
        then filter
               (fun b => contains (lower (strip term)) (lower (Book.title b)))
               (books w)
        else []), w) /\
  search_books_in_catalog term "author" w =
    (Returned
       (if truthy term
        then filter
               (fun b => contains (lower (strip term)) (lower (Book.author b)))
               (books w)
        else []), w).
Proof. split; apply search_as_filter. Qed.

Lemma lower_char_idempotent (c : ascii) :
  lower_char (lower_char c) = lower_char c.
Proof.
  destruct c as [[|] [|] [|] [|] [|] [|] [|] [|]]; reflexivity.
Qed.

Lemma lower_idempotent (s : string) : lower (lower s) = lower s.
Proof.
  induction s as [|c s IH]; simpl; [reflexivity|].
  rewrite lower_char_idempotent, IH. reflexivity.
Qed.

Lemma truthy_lower (s : string) : truthy (lower s) = truthy s.
Proof. destruct s; reflexivity. Qed.

Lemma search_type_of_lower (st : string) :
  search_type_of (lower st) = search_type_of st.
Proof.
  unfold search_type_of. rewrite truthy_lower.
  destruct (truthy st); [|reflexivity].
  rewrite lower_idempotent. reflexivity.
Qed.

Lemma search_type_of_other (st : string) :
  is_search_type (lower st) = false -> search_type_of st = "title".
Proof.
  intros H. unfold search_type_of.
  destruct (truthy st); [rewrite H|]; reflexivity.
Qed.

(** X24: the search type is read without regard to case, and a type that
    is, once lowered, none of title, author and isbn (the empty type
    among them) stands for title. *)
Theorem search_type_normalised (w : World) (term st : string) :
  search_books_in_catalog term st w =
    search_books_in_catalog term (lower st) w /\
  (is_search_type (lower st) = false ->
   search_books_in_catalog term st w =
     search_books_in_catalog term "title" w).
Proof.
  split.
  - rewrite !search_as_filter, search_type_of_lower. reflexivity.
  - intros H. rewrite !search_as_filter, (search_type_of_other st H).
    reflexivity.
Qed.

Lemma search_type_normalised_witness :
  search_books_in_catalog "orwell" "AUTHOR" small_library =
    (Returned [nineteen84], small_library) /\
  is_search_type (lower "publisher") = false /\
  search_books_in_catalog "gatsby" "publisher" small_library =
    (Returned [gatsby], small_library).
Proof.
  split; [|split; [reflexivity|]].
  - rewrite (proj1 (search_type_normalised small_library "orwell" "AUTHOR")).
    reflexivity.
  - rewrite (proj2 (search_type_normalised small_library "gatsby"
                      "publisher") eq_refl).
    reflexivity.
Defined.

Lemma contains_empty (s : string) : contains EmptyString s = true.
Proof. destruct s; reflexivity. Qed.

Lemma filter_all {X} (f : X -> bool) (l : list X) :
  (forall x, f x = true) -> filter f l = l.
Proof.
  intros H. induction l as [|x l IH]; simpl; [reflexivity|].
  rewrite H, IH. reflexivity.
Qed.

(** X25: a term that is not empty and is blank once trimmed matches every
    title and every author: the search by title and the search by author
    return the whole catalog for it, whereas the empty term returns
    nothing. *)
Theorem search_blank_term (w : World) (term : string) :
  term <> EmptyString -> strip term = EmptyString ->
  search_books_in_catalog term "title" w = (Returned (books w), w) /\
  search_books_in_catalog term "author" w = (Returned (books w), w) /\
  search_books_in_catalog EmptyString "title" w = (Returned [], w).
Proof.
  intros Hne Hblank.
  assert (Ht : truthy term = true)
    by (destruct term; [contradiction|reflexivity]).
  rewrite !search_as_filter, Ht, Hblank.
  split; [|split; [|reflexivity]].
  - rewrite filter_all; [reflexivity|]. intros b. apply contains_empty.
  - rewrite filter_all; [reflexivity|]. intros b. apply contains_empty.
Qed.

Lemma search_blank_term_witness :
  strip "   " = EmptyString /\
  search_books_in_catalog "   " "title" small_library =
    (Returned [gatsby; nineteen84; mockingbird], small_library).
Proof.
  split; [reflexivity|].
  apply (search_blank_term small_library "   "); [discriminate|reflexivity].
Defined.

(** X26: whatever the term and the type, the search returns, without
    raising and without touching the store, the books of the catalog that
    pass some test, each once and in catalog order. *)
Theorem search_returns_part_of_catalog (w : World) (term st : string) :
  exists keep : Book.t -> bool,
    search_books_in_catalog term st w =
      (Returned (filter keep (books w)), w).
Proof.
  rewrite search_as_filter. destruct (truthy term).
  - eexists. reflexivity.
  - exists (fun _ => false). f_equal. f_equal.
    induction (books w) as [|b bs IH]; [reflexivity|exact IH].
Qed.

(** ** What requests leave alone in the records *)

Lemma close_cases p bid now (old : BorrowRecord.t) :
  close p bid now old = old \/
  (BorrowRecord.patron_id old = p /\ BorrowRecord.book_id old = bid /\
   BorrowRecord.return_date old = None /\
   close p bid now old =
     BorrowRecord.mk p bid (BorrowRecord.borrow_date old)
       (BorrowRecord.due_date old) (Some now)).
Proof.
  unfold close, is_active.
  destruct (String.eqb (BorrowRecord.patron_id old) p) eqn:Ep; simpl;
    [|auto].
  destruct (BorrowRecord.return_date old) eqn:Er; simpl; [auto|].
  destruct (BorrowRecord.book_id old =? bid) eqn:Eb; [|auto].
  apply String.eqb_eq in Ep. apply Z.eqb_eq in Eb.
  right. rewrite Ep, Eb. auto.
Qed.

Lemma Forall2_same {X} (R : X -> X -> Prop) (l : list X) :
  (forall x, R x x) -> Forall2 R l l.
Proof. intros H. induction l; constructor; auto. Qed.

Lemma Forall2_map_right {X} (R : X -> X -> Prop) (g : X -> X) (l : list X) :
  (forall x, R x (g x)) -> Forall2 R l (map g l).
Proof. intros H. induction l; simpl; constructor; auto. Qed.

(** X27: whatever it answers, [return_book_by_patron] removes no record
    and changes none but active records of that patron for that book,
    which it may close at the current time: every other record, of
    another patron, for another book, or already returned, is as it
    was. *)
Theorem return_touches_own_records (w w' : World) (p : string) (bid : Z)
    (r : Outcome (bool * string)) :
  return_book_by_patron p bid w = (r, w') ->
  Forall2
    (fun old new =>
       new = old \/
       (BorrowRecord.patron_id old = p /\ BorrowRecord.book_id old = bid /\
        BorrowRecord.return_date old = None /\
        new =
          BorrowRecord.mk p bid (BorrowRecord.borrow_date old)
            (BorrowRecord.due_date old) (Some (clock w))))
    (borrow_records w) (borrow_records w').
Proof.
  intros H. destruct (return_effect _ _ _ _ _ H) as (_ & [->| ->] & _).
  - apply Forall2_same. auto.
  - apply Forall2_map_right. intros old.
    destruct (close_cases p bid (clock w) old) as [->|(Hp & Hb & Hr & ->)];
      auto.
Qed.

Lemma return_touches_own_records_witness :
  map BorrowRecord.return_date (borrow_records two_loans) = [None; None] /\
  map BorrowRecord.return_date
    (borrow_records (snd (return_book_by_patron "123456" 1 two_loans))) =
    [Some noon; None] /\
  Forall2
    (fun old new =>
       new = old \/
       (BorrowRecord.patron_id old = "123456" /\
        BorrowRecord.book_id old = 1 /\
        BorrowRecord.return_date old = None /\
        new =
          BorrowRecord.mk "123456" 1 (BorrowRecord.borrow_date old)
            (BorrowRecord.due_date old) (Some (clock two_loans))))
    (borrow_records two_loans)
    (borrow_records (snd (return_book_by_patron "123456" 1 two_loans))).
Proof.
  split; [reflexivity|]. split; [reflexivity|].
  exact (return_touches_own_records two_loans
           (snd (return_book_by_patron "123456" 1 two_loans)) "123456" 1
           (fst (return_book_by_patron "123456" 1 two_loans)) eq_refl).
Defined.

Lemma map_loan_close p bid now rs :
  map loan (map (close p bid now) rs) = map loan rs.
Proof.
  rewrite map_map. apply map_ext. intros r.
  destruct (close_cases p bid now r) as [->|(Hp & Hb & _ & ->)];
    [reflexivity|].
  unfold loan. simpl. rewrite Hp, Hb. reflexivity.
Qed.

Lemma closed_stays_in p bid now rs (r : BorrowRecord.t) :
  In r rs -> BorrowRecord.return_date r <> None ->
  In r (map (close p bid now) rs).
Proof.
  intros Hin Hr. apply in_map_iff. exists r. split; [|exact Hin].
  destruct (close_cases p bid now r) as [->|(_ & _ & Hnone & _)];
    [reflexivity|contradiction].
Qed.

Lemma records_step rq w :
  (exists added,
     map loan (borrow_records (snd (serve rq w))) =
     (map loan (borrow_records w) ++ added)%list) /\
  (forall r, In r (borrow_records w) -> BorrowRecord.return_date r <> None ->
     In r (borrow_records (snd (serve rq w)))).
Proof.
  destruct (serve_effect rq w) as (_ & _ & Hr).
  destruct Hr as [->|[(q & bid & now & ->)
                     |(q & bid & now & due & _ & ->)]].
  - split; [exists []; rewrite app_nil_r; reflexivity|auto].
  - split.
    + exists []. rewrite app_nil_r. apply map_loan_close.
    + intros r Hin Hret. apply closed_stays_in; assumption.
  - split.
    + rewrite map_app. eexists. reflexivity.
    + intros r Hin _. apply in_or_app. left. exact Hin.
Qed.

(** X28: no run of requests removes or reorders a borrow record, or
    changes its patron, book, borrow date or due date: the records after
    the run are the former ones, up to their return dates, followed by
    the records added; and a record that has been returned stays as it
    is. *)
Theorem records_are_kept (rqs : list Request) (w : World) :
  (exists added,
     map loan (borrow_records (snd (serve_all rqs w))) =
     (map loan (borrow_records w) ++ added)%list) /\
  (forall r, In r (borrow_records w) -> BorrowRecord.return_date r <> None ->
     In r (borrow_records (snd (serve_all rqs w)))).
Proof.
  revert w. induction rqs as [|rq rqs IH]; intros w; simpl.
  - split; [exists []; rewrite app_nil_r; reflexivity|auto].
  - destruct (records_step rq w) as [[a1 H1] K1].
    destruct (serve rq w) as [r w1]. simpl in H1, K1.
    destruct (IH w1) as [[a2 H2] K2].
    destruct (serve_all rqs w1) as [rs w2]. simpl in *. split.
    + exists (a1 ++ a2)%list. rewrite H2, H1, app_assoc. reflexivity.
    + intros x Hin Hret. apply K2; [apply K1; assumption|exact Hret].
Qed.

Lemma records_are_kept_witness :
  map BorrowRecord.return_date (borrow_records returned_loan) = [Some noon] /\
  let w :=
    snd (serve_all
           [Borrow "123456" 2; Borrow "654321" 1; ReturnBook "123456" 2;
            ReturnBook "654321" 1]
           returned_loan) in
  In (BorrowRecord.mk "123456" 2 noon (add_days noon 14) (Some noon))
    (borrow_records w) /\
  List.length (borrow_records w) = 3%nat.
Proof.
  split; [reflexivity|]. split; [|reflexivity].
  apply (proj2 (records_are_kept
                  [Borrow "123456" 2; Borrow "654321" 1;
                   ReturnBook "123456" 2; ReturnBook "654321" 1]
                  returned_loan)).
  - left. reflexivity.
  - discriminate.
Defined.
